(** * A Redis-backed checkpoint saver: model and verified properties

    Source: the notebook cell "Checkpointer implementation" of
    [examples/streaming-tokens-without-langchain.ipynb]:
    [JsonAndBinarySerializer], [_get_sync_connection],
    [_get_async_connection] and [RedisSaver].

    Conventions of the embedding.
    - Python [bytes] held by Redis (key names, field names, field values)
      and Python [str] are both carried by [string].  A [str] is
      represented by its UTF-8 encoding, so [.decode()] and the implicit
      encoding done by the client are the identity on representations;
      lexicographic comparison of [str] by code point agrees with the
      bytewise comparison of UTF-8 encodings, which is [String.ltb].
      Where Python distinguishes the two types (dictionary keys), the tag
      is explicit: see [pykey].
      Keys and values held by the server are taken to be valid UTF-8, as
      those written by [put] are.
    - Raw payload bytes handed to the serializer are [list byte].
    - The server answers every command: transport failures are not part
      of the keyspace model.  The connection providers are specified for
      every body, raising ones included.
    - Effects are explicit: a computation is a function from a [world]
      (the Redis keyspace, the clients created so far and the trace of
      commands and closes) to a new world and an outcome, which is a value
      or a raised exception.  Calls to the logger are not modelled.
    - A generator is modelled by the list of the values it yields when it
      is consumed to the end.
    - The coroutine variants ([aput], [aget_tuple], [alist],
      [_get_async_connection]) are modelled with the same sequential
      semantics as the blocking ones; [await] does not change the result of
      a call that runs alone. *)

From Stdlib Require Import Strings.String Strings.Ascii Strings.Byte List ZArith NArith Bool Lia.
From Stdlib Require OrderedTypeEx.
Import ListNotations.
Local Open Scope string_scope.
Local Open Scope list_scope.

(** ** Python built-ins used by the source *)

Module Py.

(** Truth value of a [str] or [bytes] object: non-empty. *)
Definition truthy (s : string) : bool :=
  match s with
  | EmptyString => false
  | String _ _ => true
  end.

(** Truth value of [d.get(k)]: [None] is false, a string is [truthy]. *)
Definition truthy_opt (o : option string) : bool :=
  match o with
  | None => false
  | Some s => truthy s
  end.

(** [s.split(sep)] for a one-character separator; the result is never
    empty. *)
Fixpoint split (sep : ascii) (s : string) : list string :=
  match s with
  | EmptyString => [EmptyString]
  | String c s' =>
      if Ascii.eqb c sep then EmptyString :: split sep s'
      else match split sep s' with
           | [] => [String c EmptyString]
           | h :: t => String c h :: t
           end
  end.

(** [k.decode().split(":")[-1]] *)
Definition last_segment (k : string) : string :=
  List.last (split ":" k) EmptyString.

(** [max(l, key=f)] on a non-empty list [x :: l]: the first element among
    those with the greatest key (a later element replaces the current
    one only when its key is strictly greater). *)
Fixpoint max_from {A : Type} (f : A -> string) (cur : A) (l : list A) : A :=
  match l with
  | [] => cur
  | x :: l' => max_from f (if String.ltb (f cur) (f x) then x else cur) l'
  end.

Definition max_by {A : Type} (f : A -> string) (l : list A) : option A :=
  match l with
  | [] => None
  | x :: l' => Some (max_from f x l')
  end.

(** [sorted(l, key=f, reverse=True)]: descending and stable, elements
    with equal keys keep their original relative order. *)
Fixpoint insert_desc {A : Type} (f : A -> string) (x : A) (l : list A) : list A :=
  match l with
  | [] => [x]
  | y :: l' =>
      if String.ltb (f x) (f y) then y :: insert_desc f x l'
      else x :: y :: l'
  end.

Fixpoint sorted_desc {A : Type} (f : A -> string) (l : list A) : list A :=
  match l with
  | [] => []
  | x :: l' => insert_desc f x (sorted_desc f l')
  end.

(** [l[:n]] for a Python integer [n]: a negative bound counts from the
    end. *)
Definition slice_to {A : Type} (n : Z) (l : list A) : list A :=
  if (0 <=? n)%Z then firstn (Z.to_nat n) l
  else firstn (Z.to_nat (Z.of_nat (length l) + n)) l.

(** *** [bytes.hex] and [bytes.fromhex] *)

Definition hex_digit (n : N) : ascii :=
  match n with
  | 0%N => "0" | 1%N => "1" | 2%N => "2" | 3%N => "3"
  | 4%N => "4" | 5%N => "5" | 6%N => "6" | 7%N => "7"
  | 8%N => "8" | 9%N => "9" | 10%N => "a" | 11%N => "b"
  | 12%N => "c" | 13%N => "d" | 14%N => "e" | _ => "f"
  end%char.

(** [b.hex()]: two lowercase digits per byte, high nibble first. *)
Fixpoint hex (b : list byte) : string :=
  match b with
  | [] => EmptyString
  | x :: b' =>
      let n := Byte.to_N x in
      String (hex_digit (N.div n 16)) (String (hex_digit (N.modulo n 16)) (hex b'))
  end.

(** Value of a hexadecimal digit, either case. *)
Definition hexval (c : ascii) : option N :=
  let n := N_of_ascii c in
  if ((48 <=? n) && (n <=? 57))%N then Some (n - 48)%N
  else if ((97 <=? n) && (n <=? 102))%N then Some (n - 87)%N
  else if ((65 <=? n) && (n <=? 70))%N then Some (n - 55)%N
  else None.

(** ASCII white space, which [fromhex] skips between bytes. *)
Definition is_space (c : ascii) : bool :=
  let n := N_of_ascii c in
  ((n =? 32) || ((9 <=? n) && (n <=? 13)))%N.

(** [bytes.fromhex(s)]; [None] stands for the [ValueError] it raises on
    a character that is not a digit or on a dangling digit. *)
Fixpoint fromhex (s : string) : option (list byte) :=
  match s with
  | EmptyString => Some []
  | String c s' =>
      if is_space c then fromhex s'
      else match s' with
           | EmptyString => None
           | String d s'' =>
               match hexval c, hexval d with
               | Some hi, Some lo =>
                   match Byte.of_N (16 * hi + lo), fromhex s'' with
                   | Some x, Some r => Some (x :: r)
                   | _, _ => None
                   end
               | _, _ => None
               end
           end
  end.

Definition is_lower_hex (c : ascii) : bool :=
  let n := N_of_ascii c in
  (((48 <=? n) && (n <=? 57)) || ((97 <=? n) && (n <=? 102)))%N.

End Py.

(** ** The Redis server, as far as the saver uses it *)

Module Redis.

(** A hash: field name to value, in insertion order. *)
Definition hash := list (string * string).

(** The keyspace: key name to hash.  The order of the list is the order
    in which [KEYS] enumerates (Redis promises none, so every order is a
    possible keyspace); [max] and [sorted] break ties by it. *)
Definition store := list (string * hash).

Fixpoint lookup {V : Type} (k : string) (l : list (string * V)) : option V :=
  match l with
  | [] => None
  | (k', v) :: l' => if String.eqb k' k then Some v else lookup k l'
  end.

(** Update the binding of [k] in place, or add it at the end. *)
Fixpoint upsert {V : Type} (k : string) (f : option V -> V)
    (l : list (string * V)) : list (string * V) :=
  match l with
  | [] => [(k, f None)]
  | (k', v) :: l' =>
      if String.eqb k' k then (k', f (Some v)) :: l'
      else (k', v) :: upsert k f l'
  end.

(** [HSET key f1 v1 f2 v2 ...] on the hash stored at [key]: each field is
    set, other fields of the hash are kept. *)
Definition hash_set (h : hash) (fv : string * string) : hash :=
  upsert (fst fv) (fun _ => snd fv) h.

Definition store_hset (key : string) (mapping : list (string * string))
    (db : store) : store :=
  upsert key
    (fun old => fold_left hash_set mapping
                  (match old with Some h => h | None => [] end))
    db.

(** *** Glob patterns of [KEYS]

    [*] matches any run of characters, [?] one character, [[...]] one
    character of a class ([^] negates, [a-z] is a range, a backslash
    quotes), a backslash outside a class quotes the next character. *)

Inductive class_item : Type :=
| CChar (c : ascii)
| CRange (lo hi : ascii).

Inductive glob_tok : Type :=
| GStar
| GAny
| GClass (negate : bool) (items : list class_item)
| GLit (c : ascii).

Definition mk_range (a b : ascii) : class_item :=
  if (N_of_ascii b <? N_of_ascii a)%N then CRange b a else CRange a b.

(** [st] is [None] outside a class and [Some (negate, items so far)]
    inside one; an unterminated class ends with the pattern. *)
Fixpoint glob_parse (st : option (bool * list class_item)) (p : string)
    : list glob_tok :=
  match st with
  | None =>
      match p with
      | EmptyString => []
      | String c p' =>
          if Ascii.eqb c "*" then GStar :: glob_parse None p'
          else if Ascii.eqb c "?" then GAny :: glob_parse None p'
          else if Ascii.eqb c "[" then
            match p' with
            | String c2 p'' =>
                if Ascii.eqb c2 "^" then glob_parse (Some (true, [])) p''
                else glob_parse (Some (false, [])) p'
            | EmptyString => glob_parse (Some (false, [])) p'
            end
          else if Ascii.eqb c "\" then
            match p' with
            | String c2 p'' => GLit c2 :: glob_parse None p''
            | EmptyString => [GLit c]
            end
          else GLit c :: glob_parse None p'
      end
  | Some (neg, acc) =>
      match p with
      | EmptyString => [GClass neg (rev acc)]
      | String c p' =>
          match p' with
          | String c2 p'' =>
              if Ascii.eqb c "\" then glob_parse (Some (neg, CChar c2 :: acc)) p''
              else if Ascii.eqb c "]" then GClass neg (rev acc) :: glob_parse None p'
              else if Ascii.eqb c2 "-" then
                match p'' with
                | String c3 p''' =>
                    glob_parse (Some (neg, mk_range c c3 :: acc)) p'''
                | EmptyString => glob_parse (Some (neg, CChar c :: acc)) p'
                end
              else glob_parse (Some (neg, CChar c :: acc)) p'
          | EmptyString =>
              if Ascii.eqb c "]" then [GClass neg (rev acc)]
              else [GClass neg (rev (CChar c :: acc))]
          end
      end
  end.

Definition class_item_has (c : ascii) (i : class_item) : bool :=
  match i with
  | CChar x => Ascii.eqb x c
  | CRange lo hi =>
      ((N_of_ascii lo <=? N_of_ascii c) && (N_of_ascii c <=? N_of_ascii hi))%N
  end.

Fixpoint glob_match (ts : list glob_tok) (s : string) : bool :=
  match ts with
  | [] => match s with EmptyString => true | String _ _ => false end
  | GStar :: ts' =>
      (fix star (s : string) : bool :=
         glob_match ts' s
         || match s with
            | EmptyString => false
            | String _ s' => star s'
            end) s
  | GAny :: ts' =>
      match s with
      | EmptyString => false
      | String _ s' => glob_match ts' s'
      end
  | GClass neg items :: ts' =>
      match s with
      | EmptyString => false
      | String c s' =>
          xorb neg (existsb (class_item_has c) items) && glob_match ts' s'
      end
  | GLit x :: ts' =>
      match s with
      | EmptyString => false
      | String c s' => Ascii.eqb x c && glob_match ts' s'
      end
  end.

Definition stringmatch (pattern key : string) : bool :=
  glob_match (glob_parse None pattern) key.

(** *** Clients, commands and the observable world *)

(** A client object: one handed over by the caller, or one built on a
    pool by the saver ([serial] tells the clients of a pool apart). *)
Inductive client : Type :=
| Borrowed (c : nat)
| Leased (pool : nat) (serial : nat).

Inductive command : Type :=
| HSET (key : string) (mapping : list (string * string))
| KEYS (pattern : string)
| HGETALL (key : string).

Inductive event : Type :=
| Issued (cl : client) (cmd : command)
| Closed (cl : client).

Record world : Type := {
  db : store;            (* the keyspace *)
  clients : nat;         (* clients built on pools so far *)
  trace : list event     (* commands and closes, oldest first *)
}.

Definition record (e : event) (w : world) : world :=
  {| db := db w; clients := clients w; trace := trace w ++ [e] |}.

Definition with_db (d : store) (w : world) : world :=
  {| db := d; clients := clients w; trace := trace w |}.

End Redis.

Import Redis.

(** ** Exceptions and computations *)

(** A dictionary key as Python sees it: a [str] never equals a [bytes],
    whatever their contents. *)
Inductive pykey : Type :=
| KStr (s : string)
| KBytes (b : string).

Definition pykey_eqb (a b : pykey) : bool :=
  match a, b with
  | KStr x, KStr y => String.eqb x y
  | KBytes x, KBytes y => String.eqb x y
  | _, _ => false
  end.

(** A dictionary with string or bytes keys and bytes values, such as the
    reply of [HGETALL]. *)
Definition pydict := list (pykey * string).

(** [d.get(k)] *)
Fixpoint dict_lookup (k : pykey) (d : pydict) : option string :=
  match d with
  | [] => None
  | (k', v) :: d' => if pykey_eqb k' k then Some v else dict_lookup k d'
  end.

(** [k in d] *)
Definition dict_contains (k : pykey) (d : pydict) : bool :=
  match dict_lookup k d with
  | Some _ => true
  | None => false
  end.

(** [d.get(k, default)] *)
Definition dict_get (k : pykey) (default : string) (d : pydict) : string :=
  match dict_lookup k d with
  | Some v => v
  | None => default
  end.

(** Truth value of a dictionary: non-empty. *)
Definition dict_truthy (d : pydict) : bool :=
  match d with
  | [] => false
  | _ :: _ => true
  end.

Inductive exn : Type :=
| ValueError (msg : string)
| ConnectionError (msg : string)   (* redis.ConnectionError *)
| KeyError (k : pykey)
| TypeError (msg : string)
| DataError (msg : string)         (* redis.DataError *)
| SerializerError.                 (* raised inside the base serializer *)

Inductive outcome (A : Type) : Type :=
| Return (a : A)
| Raise (e : exn).
Arguments Return {A} a.
Arguments Raise {A} e.

(** A computation: runs in a world, leaves a world and an outcome.  The
    effects done before an exception stay done. *)
Definition M (A : Type) : Type := world -> world * outcome A.

Definition ret {A : Type} (a : A) : M A := fun w => (w, Return a).

Definition raise {A : Type} (e : exn) : M A := fun w => (w, Raise e).

Definition bind {A B : Type} (m : M A) (k : A -> M B) : M B :=
  fun w =>
    match m w with
    | (w', Return a) => k a w'
    | (w', Raise e) => (w', Raise e)
    end.

Definition lift {A : Type} (o : outcome A) : M A := fun w => (w, o).

Declare Scope py_scope.
Delimit Scope py_scope with py.
Notation "x <- m ;; k" := (bind m (fun x => k))
  (at level 61, m at next level, right associativity) : py_scope.
Local Open Scope py_scope.

(** [d[k]], raising [KeyError] *)
Definition dict_getitem (k : pykey) (d : pydict) : M string :=
  match dict_lookup k d with
  | Some v => ret v
  | None => raise (KeyError k)
  end.

(** *** The three client calls of redis-py the saver makes

    Replies are raw bytes: the source decodes every key and value it
    reads, and indexes the reply of [hgetall] in [get_tuple] with bytes
    field names. *)

(** [conn.hset(key, mapping=...)]: one [HSET] command carrying all the
    fields. *)
Definition hset (conn : client) (key : string)
    (mapping : list (string * string)) : M unit :=
  fun w =>
    match mapping with
    | [] => (w, Raise (DataError "'hset' with no key value pairs"))
    | _ :: _ =>
        (record (Issued conn (HSET key mapping))
           (with_db (store_hset key mapping (db w)) w),
         Return tt)
    end.

(** [conn.keys(pattern)] *)
Definition keys (conn : client) (pattern : string) : M (list string) :=
  fun w =>
    (record (Issued conn (KEYS pattern)) w,
     Return (filter (stringmatch pattern) (map fst (db w)))).

(** The reply of [HGETALL] for a hash: a dictionary from the field names,
    which are bytes, to the values. *)
Definition reply (h : hash) : pydict :=
  map (fun fv => (KBytes (fst fv), snd fv)) h.

(** [conn.hgetall(key)]: the fields of the hash under bytes names, the
    empty dictionary when the key does not exist. *)
Definition hgetall (conn : client) (key : string) : M pydict :=
  fun w =>
    (record (Issued conn (HGETALL key)) w,
     Return (reply (match lookup key (db w) with
                    | Some h => h
                    | None => []
                    end))).

(** [conn.close()] on a client *)
Definition close (conn : client) : M unit :=
  fun w => (record (Closed conn) w, Return tt).

(** ** Data model of the saver *)

(** [{"configurable": {"thread_id": ..., "thread_ts": ...}}]; [thread_ts]
    is [None] when the entry is absent or holds [None]. *)
Record RunnableConfig : Type := {
  thread_id : string;
  thread_ts : option string
}.

(** A checkpoint (a typed dictionary with a [ts : str] entry); the other
    entries are the opaque [content]. *)
Record Checkpoint (V : Type) : Type := {
  ts : string;
  content : V
}.
Arguments ts {V} c.
Arguments content {V} c.

(** The objects that reach the serializer: raw bytes, a checkpoint, or
    another structured value (checkpoint metadata). *)
Inductive pyobj (V : Type) : Type :=
| PyBytes (b : list byte)
| PyCheckpoint (c : Checkpoint V)
| PyValue (v : V).
Arguments PyBytes {V} b.
Arguments PyCheckpoint {V} c.
Arguments PyValue {V} v.

Record CheckpointTuple (V : Type) : Type := {
  config : RunnableConfig;
  checkpoint : pyobj V;
  metadata : pyobj V;
  parent_config : option RunnableConfig
}.
Arguments config {V} c.
Arguments checkpoint {V} c.
Arguments metadata {V} c.
Arguments parent_config {V} c.

(** What can be passed as a connection: Python checks nothing before the
    providers run. *)
Inductive connection_obj : Type :=
| SyncRedis (c : nat)          (* redis.Redis *)
| SyncPool (p : nat)           (* redis.ConnectionPool *)
| AsyncRedis (c : nat)         (* redis.asyncio.Redis *)
| AsyncPool (p : nat)          (* redis.asyncio.ConnectionPool *)
| NoneObj                      (* None *)
| OtherObj (tag : nat).        (* any other object *)

Record RedisSaver : Type := {
  sync_connection : connection_obj;
  async_connection : connection_obj
}.

(** ** The serializer *)

(** Modelled from the spec: [JsonPlusSerializer], the base class in
    [langgraph.serde.jsonplus], is not part of the source at hand.  It is
    the "pre-existing general serializer" of the codec contract, taken
    here as an interface: [super_dumps] and [super_loads] return [None]
    when the base class raises.  [super_dumps] stands for the base
    [dumps] running with the [_default] hook of the subclass. *)
Class JsonPlusSerializer (V : Type) : Type := {
  super_dumps : pyobj V -> option string;
  super_loads : string -> option (pyobj V)
}.

(** Modelled from the spec: "must round-trip arbitrary structured values
    that a general-purpose serializer already supports". *)
Definition round_trips {V : Type} (serde : JsonPlusSerializer V) : Prop :=
  forall (o : pyobj V) (s : string),
    super_dumps o = Some s -> super_loads s = Some o.

Section Saver.

Context {V : Type} {serde : JsonPlusSerializer V}.

(** *** [JsonAndBinarySerializer]

    The [except Exception] clauses of [dumps] and [loads] log and
    re-raise, which leaves the outcome as it is. *)

Definition dumps (obj : pyobj V) : outcome string :=
  match obj with
  | PyBytes b => Return (Py.hex b)
  | _ =>
      match super_dumps obj with
      | Some s => Return s
      | None => Raise SerializerError
      end
  end.

Definition loads (s : string) (is_binary : bool) : outcome (pyobj V) :=
  if is_binary then
    match Py.fromhex s with
    | Some b => Return (PyBytes b)
    | None => Raise (ValueError "non-hexadecimal number found in fromhex() arg")
    end
  else
    match super_loads s with
    | Some o => Return o
    | None => Raise SerializerError
    end.

(** *** The scoped connection providers

    [with _get_sync_connection(connection) as conn: body] is
    [_get_sync_connection connection body].  The three steps follow the
    generator: the [try] block (which sets the local [conn] only on the
    pool branch), the [except redis.ConnectionError] clause (which
    re-raises what it caught), the [finally] block. *)

Definition new_client (pool : nat) (w : world) : world * client :=
  ({| db := db w; clients := S (clients w); trace := trace w |},
   Leased pool (clients w)).

Definition reraise_connection_error {A : Type} (r : outcome A) : outcome A :=
  match r with
  | Raise (ConnectionError msg) => Raise (ConnectionError msg)
  | _ => r
  end.

Definition finally_close {A : Type} (conn : option client)
    (w : world) (r : outcome A) : world * outcome A :=
  match conn with
  | Some cl => (fst (close cl w), r)
  | None => (w, r)
  end.

Definition _get_sync_connection {A : Type} (connection : connection_obj)
    (body : client -> M A) : M A :=
  fun w =>
    let '(w1, conn, r) :=
      match connection with
      | SyncRedis c =>
          let '(w', r) := body (Borrowed c) w in (w', None, r)
      | SyncPool p =>
          let '(w0, cl) := new_client p w in
          let '(w', r) := body cl w0 in (w', Some cl, r)
      | _ => (w, None, Raise (ValueError "Invalid sync connection object."))
      end in
    finally_close conn w1 (reraise_connection_error r).

Definition _get_async_connection {A : Type} (connection : connection_obj)
    (body : client -> M A) : M A :=
  fun w =>
    let '(w1, conn, r) :=
      match connection with
      | AsyncRedis c =>
          let '(w', r) := body (Borrowed c) w in (w', None, r)
      | AsyncPool p =>
          let '(w0, cl) := new_client p w in
          let '(w', r) := body cl w0 in (w', Some cl, r)
      | _ => (w, None, Raise (ValueError "Invalid async connection object."))
      end in
    finally_close conn w1 (reraise_connection_error r).

(** *** [RedisSaver]

    Each blocking method and its coroutine twin have the same body up to
    the provider, the connection attribute and [await]; the shared body
    takes the provider as an argument.  The outer
    [except Exception: logger.error(...); raise] of every method leaves
    the outcome as it is. *)

Definition provider : Type := forall A : Type, connection_obj -> (client -> M A) -> M A.

(** [f"checkpoint:{thread_id}:{version}"] *)
Definition make_key (thread : string) (version : string) : string :=
  ("checkpoint:" ++ thread ++ ":" ++ version)%string.

(** The body of the [with] statement of [put]: the dictionary display is
    evaluated entry by entry, then sent by one [hset]. *)
Definition put_body (conn : client) (config : RunnableConfig)
    (checkpoint : Checkpoint V) (metadata : V) : M unit :=
  let parent_ts := thread_ts config in
  let key := make_key (thread_id config) (ts checkpoint) in
  c <- lift (dumps (PyCheckpoint checkpoint)) ;;
  m <- lift (dumps (PyValue metadata)) ;;
  hset conn key
    [("checkpoint", c);
     ("metadata", m);
     ("parent_ts",
       match parent_ts with
       | Some p => if Py.truthy p then p else ""
       | None => ""
       end)].

Definition put_with (get_connection : provider) (connection : connection_obj)
    (config : RunnableConfig) (checkpoint : Checkpoint V) (metadata : V)
    : M RunnableConfig :=
  _ <- get_connection unit connection (fun conn =>
         put_body conn config checkpoint metadata) ;;
  ret {| thread_id := thread_id config; thread_ts := Some (ts checkpoint) |}.

Definition put (self : RedisSaver) :=
  put_with (@_get_sync_connection) (sync_connection self).

Definition aput (self : RedisSaver) :=
  put_with (@_get_async_connection) (async_connection self).

(** The second half of the body of [get_tuple], from [hgetall] on, once
    the key is known. *)
Definition read_tuple (conn : client) (config : RunnableConfig) (key : string)
    : M (option (CheckpointTuple V)) :=
  let thread_id := thread_id config in
  checkpoint_data <- hgetall conn key ;;
  if negb (dict_truthy checkpoint_data) then ret None
  else
    c <- dict_getitem (KBytes "checkpoint") checkpoint_data ;;
    checkpoint <- lift (loads c false) ;;
    m <- dict_getitem (KBytes "metadata") checkpoint_data ;;
    metadata <- lift (loads m false) ;;
    let parent_ts := dict_get (KBytes "parent_ts") "" checkpoint_data in
    let parent_config :=
      if Py.truthy parent_ts
      then Some {| thread_id := thread_id; thread_ts := Some parent_ts |}
      else None in
    ret (Some {| config := config;
                 checkpoint := checkpoint;
                 metadata := metadata;
                 parent_config := parent_config |}).

(** The first half: the key named by the identity, or the greatest of
    the thread's keys by last segment; [None] when the thread has no key
    (the early [return None]). *)
Definition resolve_key (conn : client) (config : RunnableConfig)
    : M (option string) :=
  let thread_id := thread_id config in
  match thread_ts config with
  | Some t =>
      if Py.truthy t then ret (Some (make_key thread_id t))
      else
        all_keys <- keys conn ("checkpoint:" ++ thread_id ++ ":*")%string ;;
        ret (Py.max_by Py.last_segment all_keys)
  | None =>
      all_keys <- keys conn ("checkpoint:" ++ thread_id ++ ":*")%string ;;
      ret (Py.max_by Py.last_segment all_keys)
  end.

Definition get_tuple_with (get_connection : provider) (connection : connection_obj)
    (config : RunnableConfig) : M (option (CheckpointTuple V)) :=
  get_connection _ connection (fun conn =>
    key <- resolve_key conn config ;;
    match key with
    | None => ret None
    | Some key => read_tuple conn config key
    end).

Definition get_tuple (self : RedisSaver) :=
  get_tuple_with (@_get_sync_connection) (sync_connection self).

Definition aget_tuple (self : RedisSaver) :=
  get_tuple_with (@_get_async_connection) (async_connection self).

(** The [before] comprehension: the test is evaluated once per key, and
    raises when [before] carries no version to compare with. *)
Fixpoint keys_before (before : RunnableConfig) (ks : list string)
    : M (list string) :=
  match ks with
  | [] => ret []
  | k :: ks' =>
      match thread_ts before with
      | None => raise (KeyError (KStr "thread_ts"))
      | Some b =>
          rest <- keys_before before ks' ;;
          ret (if String.ltb (Py.last_segment k) b then k :: rest else rest)
      end
  end.

(** The [for key in keys] loop of [list]; the result is the values
    yielded, in order. *)
Fixpoint yield_tuples (conn : client) (thread_id : string) (ks : list string)
    : M (list (CheckpointTuple V)) :=
  match ks with
  | [] => ret []
  | key :: ks' =>
      data <- hgetall conn key ;;
      if dict_truthy data
         && dict_contains (KStr "checkpoint") data
         && dict_contains (KStr "metadata") data
      then
        let thread_ts := Py.last_segment key in
        c <- dict_getitem (KStr "checkpoint") data ;;
        checkpoint <- lift (loads c false) ;;
        m <- dict_getitem (KStr "metadata") data ;;
        metadata <- lift (loads m false) ;;
        let parent_config :=
          if Py.truthy_opt (dict_lookup (KStr "parent_ts") data)
          then Some {| thread_id := thread_id;
                       thread_ts := Some (dict_get (KStr "parent_ts") "" data) |}
          else None in
        rest <- yield_tuples conn thread_id ks' ;;
        ret ({| config := {| thread_id := thread_id; thread_ts := Some thread_ts |};
                checkpoint := checkpoint;
                metadata := metadata;
                parent_config := parent_config |} :: rest)
      else yield_tuples conn thread_id ks'
  end.

(** [list] of the source ([list_] here, the name being taken).  Its
    [filter] argument is accepted and never read. *)
Definition list_with (get_connection : provider) (connection : connection_obj)
    (config : option RunnableConfig) (filter : option (list (string * pyobj V)))
    (before : option RunnableConfig) (limit : option Z)
    : M (list (CheckpointTuple V)) :=
  let thread_id :=
    match config with
    | Some c => thread_id c
    | None => "*"
    end in
  let pattern := ("checkpoint:" ++ thread_id ++ ":*")%string in
  get_connection _ connection (fun conn =>
    keys0 <- keys conn pattern ;;
    keys1 <- match before with
             | Some b => keys_before b keys0
             | None => ret keys0
             end ;;
    let keys2 := Py.sorted_desc Py.last_segment keys1 in
    let keys3 :=
      match limit with
      | Some n => if (n =? 0)%Z then keys2 else Py.slice_to n keys2
      | None => keys2
      end in
    yield_tuples conn thread_id keys3).

Definition list_ (self : RedisSaver) :=
  list_with (@_get_sync_connection) (sync_connection self).

Definition alist (self : RedisSaver) :=
  list_with (@_get_async_connection) (async_connection self).

End Saver.

(** ** A concrete serializer, to run the model on examples

    Structured values are strings.  A value [v] is written ["V" ++ v]; a
    checkpoint is written ["C"], the length of its [ts] in unary, a bar,
    its [ts] and its content.  Raw bytes are not supported at top level
    (the subclass takes them before the base class is reached). *)

Module Demo.

Fixpoint unary (n : nat) : string :=
  match n with
  | O => "|"
  | S n' => String "1" (unary n')
  end.

Fixpoint read_unary (s : string) : option (nat * string) :=
  match s with
  | EmptyString => None
  | String c s' =>
      if Ascii.eqb c "|" then Some (O, s')
      else if Ascii.eqb c "1" then
        match read_unary s' with
        | Some (n, r) => Some (S n, r)
        | None => None
        end
      else None
  end.

Fixpoint split_at (n : nat) (s : string) : option (string * string) :=
  match n with
  | O => Some (EmptyString, s)
  | S n' =>
      match s with
      | EmptyString => None
      | String c s' =>
          match split_at n' s' with
          | Some (a, b) => Some (String c a, b)
          | None => None
          end
      end
  end.

Definition demo_dumps (o : pyobj string) : option string :=
  match o with
  | PyBytes _ => None
  | PyCheckpoint c =>
      Some (String "C" (unary (String.length (ts c)) ++ ts c ++ content c))%string
  | PyValue v => Some (String "V" v)
  end.

Definition demo_loads (s : string) : option (pyobj string) :=
  match s with
  | EmptyString => None
  | String c s' =>
      if Ascii.eqb c "V" then Some (PyValue s')
      else if Ascii.eqb c "C" then
        match read_unary s' with
        | Some (n, r) =>
            match split_at n r with
            | Some (t, b) => Some (PyCheckpoint {| ts := t; content := b |})
            | None => None
            end
        | None => None
        end
      else None
  end.

#[global] Instance demo_serde : JsonPlusSerializer string := {
  super_dumps := demo_dumps;
  super_loads := demo_loads
}.

(** An empty server, and savers over a pool and over a direct
    connection. *)
Definition empty_world : world := {| db := []; clients := 0; trace := [] |}.

Definition pooled_saver : RedisSaver :=
  {| sync_connection := SyncPool 0; async_connection := AsyncPool 1 |}.

Definition direct_saver : RedisSaver :=
  {| sync_connection := SyncRedis 0; async_connection := AsyncRedis 1 |}.

Definition cp (t body : string) : Checkpoint string :=
  {| ts := t; content := body |}.

Definition thread (t : string) : RunnableConfig :=
  {| thread_id := t; thread_ts := None |}.

Definition at_version (t v : string) : RunnableConfig :=
  {| thread_id := t; thread_ts := Some v |}.

(** The world left by a computation, and its outcome. *)
Definition after {A : Type} (m : M A) (w : world) : world := fst (m w).
Definition result {A : Type} (m : M A) (w : world) : outcome A := snd (m w).

(** Three chained writes to thread ["t"] with fixed-width ISO-8601
    version markers in increasing order. *)
Definition t1 : string := "2024-05-01T10:00:59".
Definition t2 : string := "2024-05-01T10:01:30".
Definition t3 : string := "2024-05-01T10:02:01".

Definition three_puts : world :=
  after (put pooled_saver (at_version "t" t2) (cp t3 "third") "m3")
    (after (put pooled_saver (at_version "t" t1) (cp t2 "second") "m2")
       (after (put pooled_saver (thread "t") (cp t1 "first") "m1")
          empty_world)).

(** Five chained writes to thread ["t"] with versions ["v1"] to
    ["v5"]. *)
Definition five_puts : world :=
  after (put pooled_saver (at_version "t" "v4") (cp "v5" "e") "m5")
    (after (put pooled_saver (at_version "t" "v3") (cp "v4" "d") "m4")
       (after (put pooled_saver (at_version "t" "v2") (cp "v3" "c") "m3")
          (after (put pooled_saver (at_version "t" "v1") (cp "v2" "b") "m2")
             (after (put pooled_saver (thread "t") (cp "v1" "a") "m1")
                empty_world)))).

(** The same version of the same thread written twice. *)
Definition written_once : world :=
  after (put direct_saver (thread "t") (cp "v1" "first") "m") empty_world.

Definition written_twice : world :=
  after (put direct_saver (thread "t") (cp "v1" "again") "m") written_once.

(** A server that already holds a record of another thread. *)
Definition other_thread : world :=
  after (put direct_saver (thread "u") (cp "v1" "x") "mx") empty_world.

(** Two chained writes to thread ["t"]. *)
Definition chain_first : world :=
  after (put direct_saver (thread "t") (cp "v1" "a") "m1") other_thread.

Definition chain_second : world :=
  after (put direct_saver (at_version "t" "v1") (cp "v2" "b") "m2") chain_first.

End Demo.

(** The blocking and the coroutine form of each method. *)
Inductive flavour : Type := Blocking | Coroutine.

Definition put_method {V : Type} {serde : JsonPlusSerializer V} (f : flavour) :=
  match f with
  | Blocking => put
  | Coroutine => aput
  end.

(** ** Vocabulary of the statements *)

(** The sources each provider accepts (its two [isinstance] tests). *)
Definition accepted_sync (c : connection_obj) : bool :=
  match c with
  | SyncRedis _ | SyncPool _ => true
  | _ => false
  end.

Definition accepted_async (c : connection_obj) : bool :=
  match c with
  | AsyncRedis _ | AsyncPool _ => true
  | _ => false
  end.

(** The field group [put] writes. *)
Definition written_fields (c m p : string) : list (string * string) :=
  [("checkpoint", c); ("metadata", m); ("parent_ts", p)].

(** The [parent_ts] field [put] derives from the incoming identity. *)
Definition parent_field (config : RunnableConfig) : string :=
  match thread_ts config with
  | Some p => if Py.truthy p then p else ""
  | None => ""
  end.

(** A text without the characters that [KEYS] reads as pattern syntax. *)
Fixpoint glob_literal (s : string) : bool :=
  match s with
  | EmptyString => true
  | String c s' =>
      negb (Ascii.eqb c "*") && negb (Ascii.eqb c "?")
      && negb (Ascii.eqb c "[") && negb (Ascii.eqb c "\")
      && glob_literal s'
  end.

(** What both providers do on a source they accept: the body runs on
    some client [conn] in a world with the same keyspace and trace, then
    nothing or the close of that very client is appended to the trace, and
    the outcome of the body is passed on. *)
Definition scoped (get_connection : provider) (connection : connection_obj) : Prop :=
  forall (A : Type) (body : client -> M A) (w : world),
    exists (conn : client) (w0 : world) (closes : list event),
      db w0 = db w /\ trace w0 = trace w
      /\ (closes = [] \/ closes = [Closed conn])
      /\ snd (get_connection A connection body w) = snd (body conn w0)
      /\ db (fst (get_connection A connection body w)) = db (fst (body conn w0))
      /\ trace (fst (get_connection A connection body w))
         = trace (fst (body conn w0)) ++ closes.

(** The effect of one [put] on the world: the keyspace after is the
    keyspace before with one [HSET] applied, and the trace grows by that
    one command, followed at most by the close of the client that sent
    it. *)
Definition one_hset (key : string) (fields : list (string * string))
    (w w' : world) : Prop :=
  db w' = store_hset key fields (db w)
  /\ exists (conn : client) (closes : list event),
       trace w' = trace w ++ Issued conn (HSET key fields) :: closes
       /\ (closes = [] \/ closes = [Closed conn]).

(** ** The constructor and the two forms of the other methods *)

(** [RedisSaver.__init__]: both connections default to [None]. *)
Definition __init__ (sync_connection async_connection : option connection_obj)
    : RedisSaver :=
  {| sync_connection :=
       match sync_connection with Some c => c | None => NoneObj end;
     async_connection :=
       match async_connection with Some c => c | None => NoneObj end |}.

Definition get_tuple_method {V : Type} {serde : JsonPlusSerializer V} (f : flavour) :=
  match f with
  | Blocking => get_tuple
  | Coroutine => aget_tuple
  end.

Definition list_method {V : Type} {serde : JsonPlusSerializer V} (f : flavour) :=
  match f with
  | Blocking => list_
  | Coroutine => alist
  end.

(** The provider and the attribute a method of each form goes through. *)
Definition provider_of (f : flavour) : provider :=
  match f with
  | Blocking => @_get_sync_connection
  | Coroutine => @_get_async_connection
  end.

Definition connection_of (f : flavour) (self : RedisSaver) : connection_obj :=
  match f with
  | Blocking => sync_connection self
  | Coroutine => async_connection self
  end.

Definition accepted (f : flavour) (c : connection_obj) : bool :=
  match f with
  | Blocking => accepted_sync c
  | Coroutine => accepted_async c
  end.

(** A text without a colon. *)
Fixpoint colon_free (s : string) : bool :=
  match s with
  | EmptyString => true
  | String c s' => negb (Ascii.eqb c ":") && colon_free s'
  end.

(** What a tuple carries besides the identity it was asked with. *)
Definition payload {V : Type} (t : CheckpointTuple V)
    : pyobj V * pyobj V * option RunnableConfig :=
  (checkpoint t, metadata t, parent_config t).

Definition outcome_map {A B : Type} (f : A -> B) (r : outcome A) : outcome B :=
  match r with
  | Return a => Return (f a)
  | Raise e => Raise e
  end.

(** The payload of the outcome of a read. *)
Definition read_payload {V : Type} (r : outcome (option (CheckpointTuple V)))
    : outcome (option (pyobj V * pyobj V * option RunnableConfig)) :=
  outcome_map (option_map payload) r.

(** The events a run adds when all it does is send commands through one
    client: no client is built, and the trace grows by commands of that
    client only. *)
Definition issued_by (conn : client) (w w' : world) : Prop :=
  clients w' = clients w
  /\ exists cmds : list command, trace w' = trace w ++ map (Issued conn) cmds.

(** A run on a pool: one client is built, it sends commands, and its close
    is the last event. *)
Definition leased_run (pool : nat) (w w' : world) : Prop :=
  clients w' = S (clients w)
  /\ exists cmds : list command,
       trace w' = trace w ++ map (Issued (Leased pool (clients w))) cmds
                          ++ [Closed (Leased pool (clients w))].

(** Commands that read. *)
Definition is_read (cmd : command) : bool :=
  match cmd with
  | HSET _ _ => false
  | KEYS _ | HGETALL _ => true
  end.

(** Keys in non-increasing order of what follows their last colon. *)
Fixpoint descending (ks : list string) : Prop :=
  match ks with
  | [] => True
  | k :: ks' =>
      match ks' with
      | [] => True
      | k' :: _ => String.ltb (Py.last_segment k) (Py.last_segment k') = false
      end /\ descending ks'
  end.

(** The outcome of [read_tuple] as a function of the reply of [hgetall]:
    the steps of the source after the call, which touch the world no
    more. *)
Definition decode_reply {V : Type} {serde : JsonPlusSerializer V}
    (config : RunnableConfig) (d : pydict) : outcome (option (CheckpointTuple V)) :=
  if negb (dict_truthy d) then Return None
  else
    match dict_lookup (KBytes "checkpoint") d with
    | None => Raise (KeyError (KBytes "checkpoint"))
    | Some c =>
        match loads c false with
        | Raise e => Raise e
        | Return co =>
            match dict_lookup (KBytes "metadata") d with
            | None => Raise (KeyError (KBytes "metadata"))
            | Some m =>
                match loads m false with
                | Raise e => Raise e
                | Return mo =>
                    Return (Some
                      {| config := config;
                         checkpoint := co;
                         metadata := mo;
                         parent_config :=
                           if Py.truthy (dict_get (KBytes "parent_ts") "" d)
                           then Some {| thread_id := thread_id config;
                                        thread_ts :=
                                          Some (dict_get (KBytes "parent_ts") "" d) |}
                           else None |})
                end
            end
        end
    end.

(** The hash stored under a key, empty when there is none. *)
Definition hash_at (key : string) (d : store) : hash :=
  match lookup key d with
  | Some h => h
  | None => []
  end.

(** The keys of a keyspace that a thread's pattern matches, in
    enumeration order. *)
Definition thread_keys (thread : string) (d : store) : list string :=
  filter (stringmatch ("checkpoint:" ++ thread ++ ":*")) (map fst d).

(** The key [get_tuple] goes on to read, as a function of the keyspace. *)
Definition resolved (config : RunnableConfig) (d : store) : option string :=
  if Py.truthy_opt (thread_ts config)
  then Some (make_key (thread_id config)
               (match thread_ts config with Some t => t | None => "" end))
  else Py.max_by Py.last_segment (thread_keys (thread_id config) d).

(** The message of the [ValueError] of each provider. *)
Definition invalid_message (f : flavour) : string :=
  match f with
  | Blocking => "Invalid sync connection object."
  | Coroutine => "Invalid async connection object."
  end.

(** A computation whose runs all stay within a relation between the
    world before and the world after. *)
Definition preserves (R : world -> world -> Prop) {A : Type} (m : M A) : Prop :=
  forall w, R w (fst (m w)).

(** A run that only reads: the keyspace is as before, and the events added
    to the trace are reading commands and closes. *)
Definition read_only (w w' : world) : Prop :=
  db w' = db w
  /\ exists evs : list event,
       trace w' = trace w ++ evs
       /\ Forall (fun e => match e with
                           | Issued _ cmd => is_read cmd = true
                           | Closed _ => True
                           end) evs.

(** The pool and the direct client each form of the methods accepts. *)
Definition pool_of (f : flavour) (p : nat) : connection_obj :=
  match f with
  | Blocking => SyncPool p
  | Coroutine => AsyncPool p
  end.

Definition direct_of (f : flavour) (c : nat) : connection_obj :=
  match f with
  | Blocking => SyncRedis c
  | Coroutine => AsyncRedis c
  end.

(** Worlds and a serializer for the instances of the statements below. *)
Module Cases.

(** A serializer that refuses every object. *)
Definition refusing_serde : JsonPlusSerializer string :=
  {| super_dumps := fun _ => None; super_loads := fun _ => None |}.

(** A record of thread ["t"] that lacks its [checkpoint] field, as a
    writer other than [put] can leave it. *)
Definition without_checkpoint : world :=
  {| db := [(make_key "t" "v1", [("metadata", "Vm"); ("parent_ts", "")])];
     clients := 0; trace := [] |}.

(** A record that lacks its [metadata] field. *)
Definition without_metadata : world :=
  {| db := [(make_key "t" "v1", [("checkpoint", "C11|v1a"); ("parent_ts", "")])];
     clients := 0; trace := [] |}.

(** A record that lacks its [parent_ts] field. *)
Definition without_parent : world :=
  {| db := [(make_key "t" "v1", [("checkpoint", "C11|v1a"); ("metadata", "Vm")])];
     clients := 0; trace := [] |}.

End Cases.

(** * Properties *)

(** ** Hexadecimal text *)

Lemma hex_digit_lower (n : N) : Py.is_lower_hex (Py.hex_digit n) = true.
Proof.
  destruct n as [|p]; [reflexivity|].
  do 4 (destruct p as [p|p|]; try reflexivity).
Qed.

Lemma hex_digit_not_space (n : N) : Py.is_space (Py.hex_digit n) = false.
Proof.
  destruct n as [|p]; [reflexivity|].
  do 4 (destruct p as [p|p|]; try reflexivity).
Qed.

(** One byte printed and read back. *)
Lemma hex_pair_value (x : byte) :
  let n := Byte.to_N x in
  match Py.hexval (Py.hex_digit (N.div n 16)),
        Py.hexval (Py.hex_digit (N.modulo n 16)) with
  | Some hi, Some lo => Byte.of_N (16 * hi + lo) = Some x
  | _, _ => False
  end.
Proof. destruct x; vm_compute; reflexivity. Qed.

Lemma fromhex_hex (b : list byte) : Py.fromhex (Py.hex b) = Some b.
Proof.
  induction b as [|x b IH]; [reflexivity|].
  cbn [Py.hex Py.fromhex].
  rewrite hex_digit_not_space.
  pose proof (hex_pair_value x) as H. cbv zeta in H.
  destruct (Py.hexval (Py.hex_digit (Byte.to_N x / 16))) as [hi|]; [|contradiction].
  destruct (Py.hexval (Py.hex_digit (Byte.to_N x mod 16))) as [lo|]; [|contradiction].
  rewrite H, IH. reflexivity.
Qed.

Lemma hex_lower (b : list byte) :
  Forall (fun c => Py.is_lower_hex c = true) (list_ascii_of_string (Py.hex b)).
Proof.
  induction b as [|x b IH]; cbn [Py.hex list_ascii_of_string].
  - constructor.
  - constructor; [apply hex_digit_lower|].
    constructor; [apply hex_digit_lower|exact IH].
Qed.

Lemma hex_length (b : list byte) : String.length (Py.hex b) = 2 * List.length b.
Proof.
  induction b as [|x b IH]; cbn [Py.hex String.length List.length]; [reflexivity|].
  rewrite IH. lia.
Qed.

(** C6. For every byte sequence [b], [dumps] returns the text [b.hex()],
    made of lowercase hexadecimal digits only and two characters per byte
    (so nothing is put in front of the digits), and [loads] of that text
    with [is_binary=True] returns [b]. *)
Theorem dumps_bytes_is_hex_and_loads_back :
  forall (V : Type) (serde : JsonPlusSerializer V) (b : list byte),
    @dumps V serde (PyBytes b) = Return (Py.hex b)
    /\ Forall (fun c => Py.is_lower_hex c = true) (list_ascii_of_string (Py.hex b))
    /\ String.length (Py.hex b) = 2 * List.length b
    /\ @loads V serde (Py.hex b) true = Return (PyBytes b).
Proof.
  intros V serde b. split; [reflexivity|].
  split; [apply hex_lower|].
  split; [apply hex_length|].
  unfold loads. rewrite fromhex_hex. reflexivity.
Qed.

(** ** The connection providers *)

Lemma reraise_connection_error_id (A : Type) (r : outcome A) :
  reraise_connection_error r = r.
Proof. destruct r as [a|e]; [reflexivity|]. destruct e; reflexivity. Qed.

(** What a provider does around its body on each kind of accepted
    source. *)
Lemma sync_pool_run (A : Type) (p : nat) (body : client -> M A) (w : world) :
  _get_sync_connection (SyncPool p) body w =
    (record (Closed (Leased p (clients w))) (fst (body (Leased p (clients w)) (fst (new_client p w)))),
     snd (body (Leased p (clients w)) (fst (new_client p w)))).
Proof.
  unfold _get_sync_connection, new_client. cbn [fst snd].
  destruct (body _ _) as [w' r]. cbn. rewrite reraise_connection_error_id. reflexivity.
Qed.

Lemma async_pool_run (A : Type) (p : nat) (body : client -> M A) (w : world) :
  _get_async_connection (AsyncPool p) body w =
    (record (Closed (Leased p (clients w))) (fst (body (Leased p (clients w)) (fst (new_client p w)))),
     snd (body (Leased p (clients w)) (fst (new_client p w)))).
Proof.
  unfold _get_async_connection, new_client. cbn [fst snd].
  destruct (body _ _) as [w' r]. cbn. rewrite reraise_connection_error_id. reflexivity.
Qed.

Lemma sync_direct_run (A : Type) (c : nat) (body : client -> M A) (w : world) :
  _get_sync_connection (SyncRedis c) body w = body (Borrowed c) w.
Proof.
  unfold _get_sync_connection.
  destruct (body _ _) as [w' r]. cbn. rewrite reraise_connection_error_id. reflexivity.
Qed.

Lemma async_direct_run (A : Type) (c : nat) (body : client -> M A) (w : world) :
  _get_async_connection (AsyncRedis c) body w = body (Borrowed c) w.
Proof.
  unfold _get_async_connection.
  destruct (body _ _) as [w' r]. cbn. rewrite reraise_connection_error_id. reflexivity.
Qed.

(** C7. On a pool, either provider builds a client, runs the body on it
    and closes that client afterwards: the final trace is the trace left
    by the body followed by the close, and the outcome is the body's,
    returned value or raised exception alike.  On a client supplied
    directly, the whole run is the run of the body on that client: the
    provider adds no close (and no other event) of its own. *)
Theorem pooled_client_closed_direct_client_untouched :
  forall (A : Type) (body : client -> M A) (w : world) (n : nat),
    let cl := Leased n (clients w) in
    let inner := body cl (fst (new_client n w)) in
    (trace (fst (_get_sync_connection (SyncPool n) body w)) = trace (fst inner) ++ [Closed cl]
     /\ db (fst (_get_sync_connection (SyncPool n) body w)) = db (fst inner)
     /\ snd (_get_sync_connection (SyncPool n) body w) = snd inner)
    /\ (trace (fst (_get_async_connection (AsyncPool n) body w)) = trace (fst inner) ++ [Closed cl]
        /\ db (fst (_get_async_connection (AsyncPool n) body w)) = db (fst inner)
        /\ snd (_get_async_connection (AsyncPool n) body w) = snd inner)
    /\ _get_sync_connection (SyncRedis n) body w = body (Borrowed n) w
    /\ _get_async_connection (AsyncRedis n) body w = body (Borrowed n) w.
Proof.
  intros A body w n cl inner.
  rewrite sync_pool_run, async_pool_run, sync_direct_run, async_direct_run.
  cbn [fst snd record trace db].
  repeat split; reflexivity.
Qed.

(** C8. A source that is neither an accepted client nor an accepted pool
    makes the provider raise [ValueError] at once: the world is left as it
    was (no command issued, no client built) and the body is never run,
    whatever it is. *)
Theorem invalid_source_raises_before_any_command :
  forall (A : Type) (body : client -> M A) (w : world) (c : connection_obj),
    (accepted_sync c = false ->
       _get_sync_connection c body w =
         (w, Raise (ValueError "Invalid sync connection object.")))
    /\ (accepted_async c = false ->
          _get_async_connection c body w =
            (w, Raise (ValueError "Invalid async connection object."))).
Proof.
  intros A body w c. split; intros H; destruct c; try discriminate H; reflexivity.
Qed.

(** ** The keyspace *)

Lemma lookup_upsert_same (V : Type) (k : string) (f : option V -> V)
    (l : list (string * V)) :
  lookup k (upsert k f l) = Some (f (lookup k l)).
Proof.
  induction l as [|[k' v] l IH]; cbn [upsert lookup].
  - rewrite String.eqb_refl. reflexivity.
  - destruct (String.eqb k' k) eqn:E; cbn [lookup]; rewrite E; [reflexivity|exact IH].
Qed.

Lemma lookup_upsert_other (V : Type) (k k' : string) (f : option V -> V)
    (l : list (string * V)) :
  k' <> k -> lookup k' (upsert k f l) = lookup k' l.
Proof.
  intros N. induction l as [|[k0 v] l IH]; cbn [upsert lookup].
  - destruct (String.eqb_spec k k'); [congruence|reflexivity].
  - destruct (String.eqb_spec k0 k) as [->|N0]; cbn [lookup].
    + destruct (String.eqb_spec k k'); [congruence|reflexivity].
    + destruct (String.eqb k0 k'); [reflexivity|exact IH].
Qed.

Lemma length_upsert (V : Type) (k : string) (f : option V -> V)
    (l : list (string * V)) :
  List.length (upsert k f l) =
    match lookup k l with
    | Some _ => List.length l
    | None => S (List.length l)
    end.
Proof.
  induction l as [|[k' v] l IH]; cbn [upsert lookup List.length]; [reflexivity|].
  destruct (String.eqb k' k); cbn [List.length]; [reflexivity|].
  rewrite IH. destruct (lookup k l); reflexivity.
Qed.

Lemma names_upsert_absent (V : Type) (k : string) (f : option V -> V)
    (l : list (string * V)) :
  lookup k l = None -> map fst (upsert k f l) = map fst l ++ [k].
Proof.
  induction l as [|[k' v] l IH]; cbn [upsert lookup map fst app]; [reflexivity|].
  destruct (String.eqb k' k); [discriminate|].
  intros H. cbn [map fst]. rewrite (IH H). reflexivity.
Qed.

Lemma lookup_in_names (V : Type) (k : string) (l : list (string * V)) :
  In k (map fst l) -> lookup k l <> None.
Proof.
  induction l as [|[k' v] l IH]; cbn [map fst In lookup]; [tauto|].
  intros [->|H].
  - rewrite String.eqb_refl. discriminate.
  - destruct (String.eqb k' k); [discriminate|exact (IH H)].
Qed.

Lemma upsert_not_nil (V : Type) (k : string) (f : option V -> V)
    (l : list (string * V)) :
  upsert k f l <> [].
Proof.
  destruct l as [|[k' v] l]; cbn [upsert]; [discriminate|].
  destruct (String.eqb k' k); discriminate.
Qed.

(** The hash under a key after [HSET]: the three fields hold what was
    sent, whatever the hash held before. *)
Lemma written_fields_stored (c m p : string) (h : hash) :
  let h' := fold_left hash_set (written_fields c m p) h in
  lookup "checkpoint" h' = Some c
  /\ lookup "metadata" h' = Some m
  /\ lookup "parent_ts" h' = Some p
  /\ h' <> [].
Proof.
  cbn [written_fields fold_left]. unfold hash_set. cbn [fst snd].
  repeat split.
  - rewrite !lookup_upsert_other by discriminate. apply lookup_upsert_same.
  - rewrite lookup_upsert_other by discriminate. apply lookup_upsert_same.
  - apply lookup_upsert_same.
  - apply upsert_not_nil.
Qed.

(** The reply of [HGETALL] read as a dictionary: bytes names find the
    fields, [str] names find nothing. *)
Lemma reply_lookup_bytes (f : string) (h : hash) :
  dict_lookup (KBytes f) (reply h) = lookup f h.
Proof.
  induction h as [|[f' v] h IH]; cbn; [reflexivity|].
  destruct (String.eqb f' f); [reflexivity|exact IH].
Qed.

Lemma reply_lookup_str (f : string) (h : hash) :
  dict_lookup (KStr f) (reply h) = None.
Proof. induction h as [|[f' v] h IH]; cbn; [reflexivity|exact IH]. Qed.

Lemma reply_truthy (h : hash) : h <> [] -> dict_truthy (reply h) = true.
Proof. destruct h; [congruence|reflexivity]. Qed.

(** ** Patterns without metacharacters in front of a final star *)

Lemma glob_parse_literal (p rest : string) :
  glob_literal p = true ->
  glob_parse None (p ++ rest) =
    map GLit (list_ascii_of_string p) ++ glob_parse None rest.
Proof.
  induction p as [|c p IH]; intros H; [reflexivity|].
  cbn [glob_literal] in H.
  apply andb_prop in H as [H Hp]. apply andb_prop in H as [H H4].
  apply andb_prop in H as [H H3]. apply andb_prop in H as [H1 H2].
  apply negb_true_iff in H1, H2, H3, H4.
  cbn [String.append glob_parse list_ascii_of_string map app].
  rewrite H1, H2, H3, H4, (IH Hp). reflexivity.
Qed.

Lemma glob_match_star_all (s : string) : glob_match [GStar] s = true.
Proof.
  induction s as [|c s IH]; [reflexivity|].
  cbn [glob_match] in *. cbn [orb]. exact IH.
Qed.

Lemma glob_match_literal (p : string) (ts : list glob_tok) (s : string) :
  glob_match (map GLit (list_ascii_of_string p) ++ ts) s = true <->
  exists r, s = (p ++ r)%string /\ glob_match ts r = true.
Proof.
  revert s. induction p as [|c p IH]; intros s; cbn [list_ascii_of_string map app].
  - split; [intros H; exists s; split; [reflexivity|exact H]|].
    intros [r [-> H]]. exact H.
  - cbn [glob_match]. destruct s as [|d s].
    + split; [discriminate|]. intros [r [E _]]. discriminate E.
    + split.
      * intros H. apply andb_prop in H as [E H].
        apply Ascii.eqb_eq in E. subst d.
        apply IH in H as [r [-> H]]. exists r. split; [reflexivity|exact H].
      * intros [r [E H]]. cbn [String.append] in E. injection E as -> ->.
        rewrite Ascii.eqb_refl. cbn [andb]. apply IH. exists r. split; [reflexivity|exact H].
Qed.

Lemma stringmatch_prefix_star (p k : string) :
  glob_literal p = true ->
  stringmatch (p ++ "*") k = true <-> exists v, k = (p ++ v)%string.
Proof.
  intros L. unfold stringmatch. rewrite (glob_parse_literal p "*" L).
  cbn [glob_parse]. cbn. rewrite glob_match_literal.
  split.
  - intros [r [E _]]. exists r. exact E.
  - intros [v E]. exists v. split; [exact E|apply glob_match_star_all].
Qed.

(** ** Runs of the saver's methods *)

Lemma sync_scoped (c : connection_obj) :
  accepted_sync c = true -> scoped (@_get_sync_connection) c.
Proof.
  intros H A body w. destruct c; try discriminate H.
  - exists (Borrowed c), w, []. rewrite sync_direct_run, app_nil_r. auto 10.
  - exists (Leased p (clients w)), (fst (new_client p w)), [Closed (Leased p (clients w))].
    rewrite sync_pool_run. cbn [fst snd new_client db trace record]. auto 10.
Qed.

Lemma async_scoped (c : connection_obj) :
  accepted_async c = true -> scoped (@_get_async_connection) c.
Proof.
  intros H A body w. destruct c; try discriminate H.
  - exists (Borrowed c), w, []. rewrite async_direct_run, app_nil_r. auto 10.
  - exists (Leased p (clients w)), (fst (new_client p w)), [Closed (Leased p (clients w))].
    rewrite async_pool_run. cbn [fst snd new_client db trace record]. auto 10.
Qed.

(** A provider that returned did so on an accepted source. *)
Lemma sync_returned_accepted (A : Type) (c : connection_obj)
    (body : client -> M A) (w : world) (a : A) :
  snd (_get_sync_connection c body w) = Return a -> accepted_sync c = true.
Proof. destruct c; try reflexivity; cbn; discriminate. Qed.

Lemma async_returned_accepted (A : Type) (c : connection_obj)
    (body : client -> M A) (w : world) (a : A) :
  snd (_get_async_connection c body w) = Return a -> accepted_async c = true.
Proof. destruct c; try reflexivity; cbn; discriminate. Qed.

Section Runs.

Context {V : Type} {serde : JsonPlusSerializer V}.

(** The body of [put] on a client. *)
Lemma put_body_run (conn : client) (config : RunnableConfig)
    (cp : Checkpoint V) (md : V) (w : world) :
  put_body conn config cp md w
  = match dumps (PyCheckpoint cp), dumps (PyValue md) with
    | Return c, Return m =>
        let fields := written_fields c m (parent_field config) in
        let key := make_key (thread_id config) (ts cp) in
        (record (Issued conn (HSET key fields))
           (with_db (store_hset key fields (db w)) w), Return tt)
    | Raise e, _ => (w, Raise e)
    | Return _, Raise e => (w, Raise e)
    end.
Proof.
  unfold put_body, bind, lift.
  destruct (dumps (PyCheckpoint cp)); [|reflexivity].
  destruct (dumps (PyValue md)); reflexivity.
Qed.

(** [put] through a scoped provider, when both payloads serialize. *)
Lemma put_with_returns (g : provider) (connection : connection_obj)
    (config : RunnableConfig) (cp : Checkpoint V) (md : V) (c m : string)
    (w : world) :
  scoped g connection ->
  dumps (PyCheckpoint cp) = Return c ->
  dumps (PyValue md) = Return m ->
  snd (put_with g connection config cp md w)
    = Return {| thread_id := thread_id config; thread_ts := Some (ts cp) |}
  /\ one_hset (make_key (thread_id config) (ts cp))
       (written_fields c m (parent_field config))
       w (fst (put_with g connection config cp md w)).
Proof.
  intros Sc Hc Hm. unfold put_with, bind.
  destruct (Sc unit (fun conn => put_body conn config cp md) w)
    as (conn & w0 & closes & Hdb & Htr & Hcl & Hr & Hd & Ht).
  rewrite put_body_run, Hc, Hm in Hr, Hd, Ht.
  cbn [fst snd record with_db db trace] in Hr, Hd, Ht.
  destruct (g unit connection _ w) as [w' r]. cbn [fst snd] in *.
  subst r. cbn [ret fst snd]. split; [reflexivity|].
  split; [rewrite Hd, Hdb; reflexivity|].
  exists conn, closes. split; [|exact Hcl].
  rewrite Ht, Htr, <- app_assoc. reflexivity.
Qed.

(** [put] returns only when both payloads serialized. *)
Lemma put_with_returned (g : provider) (connection : connection_obj)
    (config : RunnableConfig) (cp : Checkpoint V) (md : V)
    (w : world) (r : RunnableConfig) :
  scoped g connection ->
  snd (put_with g connection config cp md w) = Return r ->
  exists c m, dumps (PyCheckpoint cp) = Return c /\ dumps (PyValue md) = Return m.
Proof.
  intros Sc. unfold put_with, bind.
  destruct (Sc unit (fun conn => put_body conn config cp md) w)
    as (conn & w0 & closes & _ & _ & _ & Hr & _ & _).
  rewrite put_body_run in Hr.
  destruct (g unit connection _ w) as [w' o]. cbn [fst snd] in *. subst o.
  destruct (dumps (PyCheckpoint cp)) as [c|e]; [|discriminate].
  destruct (dumps (PyValue md)) as [m|e]; [|discriminate].
  intros _. exists c, m. split; reflexivity.
Qed.

(** Reading a hash that holds the three fields and whose payloads
    decode. *)
Lemma read_tuple_run (conn : client) (config : RunnableConfig) (key : string)
    (h : hash) (c m p : string) (co mo : pyobj V) (w : world) :
  lookup key (db w) = Some h ->
  h <> [] ->
  lookup "checkpoint" h = Some c ->
  lookup "metadata" h = Some m ->
  lookup "parent_ts" h = Some p ->
  super_loads c = Some co ->
  super_loads m = Some mo ->
  read_tuple conn config key w
  = (record (Issued conn (HGETALL key)) w,
     Return (Some {| config := config;
                     checkpoint := co;
                     metadata := mo;
                     parent_config :=
                       if Py.truthy p
                       then Some {| thread_id := thread_id config;
                                    thread_ts := Some p |}
                       else None |})).
Proof.
  intros Hk Hne Hc Hm Hp Lc Lm.
  unfold read_tuple, bind at 1, hgetall. rewrite Hk.
  rewrite (reply_truthy h Hne). cbn [negb].
  unfold bind at 1, dict_getitem. rewrite reply_lookup_bytes, Hc. cbn [ret].
  unfold bind at 1, lift, loads. rewrite Lc.
  unfold bind at 1. rewrite reply_lookup_bytes, Hm. cbn [ret].
  unfold bind at 1. rewrite Lm.
  unfold dict_get. rewrite reply_lookup_bytes, Hp. reflexivity.
Qed.

(** The key [get_tuple] reads: the one named by a non-empty version... *)
Lemma resolve_key_exact (conn : client) (config : RunnableConfig)
    (t : string) (w : world) :
  thread_ts config = Some t -> Py.truthy t = true ->
  resolve_key conn config w = (w, Return (Some (make_key (thread_id config) t))).
Proof. intros E T. unfold resolve_key. rewrite E, T. reflexivity. Qed.

(** ... and otherwise the greatest, by last segment, of the keys that
    match the thread's pattern. *)
Lemma resolve_key_latest (conn : client) (config : RunnableConfig) (w : world) :
  Py.truthy_opt (thread_ts config) = false ->
  resolve_key conn config w
  = (record (Issued conn (KEYS ("checkpoint:" ++ thread_id config ++ ":*"))) w,
     Return (Py.max_by Py.last_segment
               (filter (stringmatch ("checkpoint:" ++ thread_id config ++ ":*"))
                  (map fst (db w))))).
Proof.
  intros T. unfold resolve_key.
  destruct (thread_ts config) as [t|]; [cbn in T; rewrite T|]; reflexivity.
Qed.

(** [get_tuple] through a scoped provider: its outcome is that of
    reading the resolved key. *)
Lemma get_tuple_with_reads (g : provider) (connection : connection_obj)
    (config : RunnableConfig) (key : string) (w : world)
    (t : CheckpointTuple V) :
  scoped g connection ->
  (forall conn w0, db w0 = db w ->
     exists w1, resolve_key conn config w0 = (w1, Return (Some key)) /\ db w1 = db w) ->
  (forall conn w1, db w1 = db w ->
     snd (read_tuple conn config key w1) = Return (Some t)) ->
  snd (get_tuple_with g connection config w) = Return (Some t).
Proof.
  intros Sc Hk Hr. unfold get_tuple_with.
  match goal with
  | |- context [g _ connection ?b] =>
      destruct (Sc _ b w) as (conn & w0 & closes & Hdb & _ & _ & Ho & _ & _)
  end.
  rewrite Ho. unfold bind.
  destruct (Hk conn w0 Hdb) as (w1 & -> & Hdb1).
  apply Hr. exact Hdb1.
Qed.

End Runs.

(** ** The concrete serializer round-trips *)

Lemma read_unary_unary (n : nat) (r : string) :
  Demo.read_unary (Demo.unary n ++ r) = Some (n, r).
Proof.
  induction n as [|n IH]; cbn; [reflexivity|].
  rewrite IH. reflexivity.
Qed.

Lemma split_at_length (a b : string) :
  Demo.split_at (String.length a) (a ++ b) = Some (a, b).
Proof.
  induction a as [|c a IH]; cbn; [reflexivity|].
  rewrite IH. reflexivity.
Qed.

Lemma demo_round_trips : round_trips Demo.demo_serde.
Proof.
  intros o s. destruct o as [b|[t body]|v]; cbn; intros H.
  - discriminate H.
  - injection H as <-. cbn.
    rewrite read_unary_unary, split_at_length. reflexivity.
  - injection H as <-. reflexivity.
Qed.

(** ** Parent links *)

Lemma truthy_nonempty (s : string) : s <> "" -> Py.truthy s = true.
Proof. destruct s; [congruence|reflexivity]. Qed.

Section Chain.

Context {V : Type} {serde : JsonPlusSerializer V}.

Lemma dumps_loads (o : pyobj V) (s : string) :
  round_trips serde ->
  (forall b, o <> PyBytes b) ->
  dumps o = Return s -> super_loads s = Some o.
Proof.
  intros RT NB H. apply RT. unfold dumps in H.
  destruct o as [b|c|v]; [destruct (NB b eq_refl)| |];
    (destruct (super_dumps _); [injection H as ->; reflexivity|discriminate]).
Qed.

Lemma put_returned_accepted (self : RedisSaver) (config : RunnableConfig)
    (cp : Checkpoint V) (md : V) (w : world) (r : RunnableConfig) :
  snd (put self config cp md w) = Return r ->
  accepted_sync (sync_connection self) = true.
Proof.
  unfold put, put_with, bind.
  destruct (_get_sync_connection _ _ w) as [w' o] eqn:E.
  destruct o as [[]|e]; [|discriminate]. intros _.
  apply (sync_returned_accepted unit _ (fun conn => put_body conn config cp md) w tt).
  rewrite E. reflexivity.
Qed.

(** What a record just written by [put] reads back as. *)
Lemma read_after_hset (conn : client) (config : RunnableConfig)
    (key c m p : string) (co mo : pyobj V) (w w1 : world) :
  db w1 = store_hset key (written_fields c m p) (db w) ->
  super_loads c = Some co ->
  super_loads m = Some mo ->
  snd (read_tuple conn config key w1)
  = Return (Some {| config := config;
                    checkpoint := co;
                    metadata := mo;
                    parent_config :=
                      if Py.truthy p
                      then Some {| thread_id := thread_id config;
                                   thread_ts := Some p |}
                      else None |}).
Proof.
  intros Hdb Lc Lm.
  pose proof (written_fields_stored c m p
                (match lookup key (db w) with Some h => h | None => [] end))
    as (Fc & Fm & Fp & Fne).
  erewrite read_tuple_run; [reflexivity| |eassumption..].
  rewrite Hdb. unfold store_hset. apply lookup_upsert_same.
Qed.

End Chain.

(** C4. Two chained writes, then a read at the second returned identity:
    when [put id0 c0 m0] returns [id1] and [put id1 c1 m1] returns [id2],
    with [c0] and [c1] carrying version markers (a non-empty [ts]: an
    empty one is how the code spells "no version"), [get_tuple id2]
    returns a tuple whose parent identity is present, names the same
    thread and carries the version of [id1], which is the [ts] of [c0].
    The tuple holds [c1] and [m1].  The base serializer is assumed to
    round-trip. *)
Theorem chained_put_links_parent :
  forall (V : Type) (serde : JsonPlusSerializer V) (self : RedisSaver)
         (id0 id1 id2 : RunnableConfig) (c0 c1 : Checkpoint V) (m0 m1 : V)
         (w0 w1 w2 : world),
    round_trips serde ->
    ts c0 <> "" ->
    ts c1 <> "" ->
    put self id0 c0 m0 w0 = (w1, Return id1) ->
    put self id1 c1 m1 w1 = (w2, Return id2) ->
    exists t : CheckpointTuple V,
      snd (get_tuple self id2 w2) = Return (Some t)
      /\ parent_config t
         = Some {| thread_id := thread_id id2; thread_ts := thread_ts id1 |}
      /\ thread_ts id1 = Some (ts c0)
      /\ checkpoint t = PyCheckpoint c1
      /\ metadata t = PyValue m1.
Proof.
  intros V serde self id0 id1 id2 c0 c1 m0 m1 w0 w1 w2 RT N0 N1 P0 P1.
  assert (A : accepted_sync (sync_connection self) = true).
  { apply (put_returned_accepted self id0 c0 m0 w0 id1). rewrite P0. reflexivity. }
  pose proof (sync_scoped _ A) as Sc.
  destruct (put_with_returned _ _ id0 c0 m0 w0 id1 Sc) as (s0 & t0 & D0 & E0).
  { fold (put self). rewrite P0. reflexivity. }
  destruct (put_with_returned _ _ id1 c1 m1 w1 id2 Sc) as (s1 & t1 & D1 & E1).
  { fold (put self). rewrite P1. reflexivity. }
  destruct (put_with_returns _ _ id0 c0 m0 s0 t0 w0 Sc D0 E0) as (R0 & _).
  destruct (put_with_returns _ _ id1 c1 m1 s1 t1 w1 Sc D1 E1) as (R1 & (Hdb & _)).
  fold (put self) in R0, R1, Hdb. rewrite P0 in R0. rewrite P1 in R1, Hdb.
  cbn [fst snd] in R0, R1, Hdb.
  injection R0 as ->. injection R1 as ->.
  cbn [thread_id thread_ts] in *.
  unfold parent_field in Hdb. cbn [thread_ts] in Hdb.
  rewrite (truthy_nonempty _ N0) in Hdb.
  eexists. split.
  { unfold get_tuple.
    apply (get_tuple_with_reads _ _ _ (make_key (thread_id id0) (ts c1)) w2); [exact Sc| |].
    - intros conn w' Hw. exists w'. split; [|exact Hw].
      apply (resolve_key_exact conn
               {| thread_id := thread_id id0; thread_ts := Some (ts c1) |} (ts c1) w');
        [reflexivity|].
      apply truthy_nonempty. exact N1.
    - intros conn w' Hw.
      rewrite (read_after_hset conn _ _ s1 t1 (ts c0)
                 (PyCheckpoint c1) (PyValue m1) w1 w').
      + rewrite (truthy_nonempty _ N0). reflexivity.
      + rewrite Hw. exact Hdb.
      + apply dumps_loads; [exact RT|discriminate|exact D1].
      + apply dumps_loads; [exact RT|discriminate|exact E1]. }
  cbn. repeat split; reflexivity.
Qed.

(** ** The keys of a thread *)

Lemma append_assoc (a b c : string) :
  ((a ++ b) ++ c)%string = (a ++ (b ++ c))%string.
Proof. induction a as [|x a IH]; cbn; [reflexivity|rewrite IH; reflexivity]. Qed.

Lemma make_key_prefix (th v : string) :
  make_key th v = (("checkpoint:" ++ th ++ ":") ++ v)%string.
Proof.
  unfold make_key. cbn [String.append]. do 11 f_equal.
  rewrite append_assoc. reflexivity.
Qed.

Lemma thread_pattern_prefix (th : string) :
  ("checkpoint:" ++ th ++ ":*")%string = (("checkpoint:" ++ th ++ ":") ++ "*")%string.
Proof.
  cbn [String.append]. do 11 f_equal.
  rewrite append_assoc. reflexivity.
Qed.

Lemma glob_literal_app (a b : string) :
  glob_literal a = true -> glob_literal b = true -> glob_literal (a ++ b) = true.
Proof.
  intros Ha Hb. induction a as [|c a IH]; [exact Hb|].
  cbn [glob_literal String.append] in *.
  apply andb_prop in Ha as [H Ha]. rewrite H, (IH Ha). reflexivity.
Qed.

(** For a thread id without pattern characters, the keys [KEYS] returns
    for the thread are the keys [make_key] builds for it. *)
Lemma thread_pattern_matches (th k : string) :
  glob_literal th = true ->
  stringmatch ("checkpoint:" ++ th ++ ":*") k = true <-> exists v, k = make_key th v.
Proof.
  intros L. rewrite thread_pattern_prefix, stringmatch_prefix_star.
  - split; intros [v E]; exists v; rewrite E; [symmetry|]; apply make_key_prefix.
  - apply (glob_literal_app "checkpoint:" (th ++ ":")); [reflexivity|].
    apply glob_literal_app; [exact L|reflexivity].
Qed.

Lemma filter_none (A : Type) (f : A -> bool) (l : list A) :
  (forall x, In x l -> f x = false) -> filter f l = [].
Proof.
  induction l as [|x l IH]; intros H; [reflexivity|].
  cbn [filter]. rewrite (H x (or_introl eq_refl)).
  apply IH. intros y Hy. apply H. right. exact Hy.
Qed.

(** After the first write to a thread, [KEYS] on the thread's pattern
    returns the written key alone. *)
Lemma keys_after_first_put (th v : string) (fields : list (string * string))
    (d : store) :
  glob_literal th = true ->
  (forall v', lookup (make_key th v') d = None) ->
  filter (stringmatch ("checkpoint:" ++ th ++ ":*"))
    (map fst (store_hset (make_key th v) fields d))
  = [make_key th v].
Proof.
  intros L F. unfold store_hset.
  rewrite names_upsert_absent by apply F.
  rewrite filter_app, filter_none.
  - cbn [filter app].
    rewrite (proj2 (thread_pattern_matches th (make_key th v) L)); [reflexivity|].
    exists v. reflexivity.
  - intros k Hk. destruct (stringmatch _ k) eqn:E; [|reflexivity].
    apply (thread_pattern_matches th k L) in E as [v' ->].
    destruct (lookup_in_names _ _ _ Hk (F v')).
Qed.

(** ** First write to a fresh thread *)

(** For any thread id without pattern characters. *)
Lemma first_put_then_latest (V : Type) (serde : JsonPlusSerializer V)
    (self : RedisSaver) (th : string) (cp : Checkpoint V) (md : V)
    (c m : string) (w : world) :
  round_trips serde ->
  accepted_sync (sync_connection self) = true ->
  glob_literal th = true ->
  dumps (PyCheckpoint cp) = Return c ->
  dumps (PyValue md) = Return m ->
  (forall v, lookup (make_key th v) (db w) = None) ->
  let fresh := {| thread_id := th; thread_ts := None |} in
  snd (put self fresh cp md w) = Return {| thread_id := th; thread_ts := Some (ts cp) |}
  /\ snd (get_tuple self fresh (fst (put self fresh cp md w)))
     = Return (Some {| config := fresh;
                       checkpoint := PyCheckpoint cp;
                       metadata := PyValue md;
                       parent_config := None |}).
Proof.
  intros RT A L D E F fresh.
  pose proof (sync_scoped _ A) as Sc.
  destruct (put_with_returns _ _ fresh cp md c m w Sc D E) as (R & (Hdb & _)).
  fold (put self) in R, Hdb. split; [exact R|].
  set (w1 := fst (put self fresh cp md w)) in *.
  unfold get_tuple.
  apply (get_tuple_with_reads _ _ _ (make_key th (ts cp)) w1); [exact Sc| |].
  - intros conn w' Hw. eexists. split.
    + rewrite resolve_key_latest by reflexivity.
      rewrite Hw, Hdb. cbn [thread_id fresh].
      rewrite keys_after_first_put by assumption. reflexivity.
    + exact Hw.
  - intros conn w' Hw.
    apply (read_after_hset conn fresh _ c m "" (PyCheckpoint cp) (PyValue md) w w').
    + rewrite Hw. exact Hdb.
    + apply dumps_loads; [exact RT|discriminate|exact D].
    + apply dumps_loads; [exact RT|discriminate|exact E].
Qed.

(** C5. First write to the fresh thread ["t"]: with no record stored for
    the thread, [put] of a checkpoint whose [ts] is [V1], under the
    identity [{thread_id: "t"}] without version, returns
    [{thread_id: "t", thread_ts: V1}]; [get_tuple({thread_id: "t"})] on
    the world it leaves returns the checkpoint and the metadata that were
    passed in and no parent identity.  The saver has an accepted
    connection, both payloads serialize and the base serializer
    round-trips. *)
Theorem first_put_on_fresh_thread_reads_back :
  forall (V : Type) (serde : JsonPlusSerializer V) (self : RedisSaver)
         (cp : Checkpoint V) (md : V) (c m : string) (w : world),
    round_trips serde ->
    accepted_sync (sync_connection self) = true ->
    dumps (PyCheckpoint cp) = Return c ->
    dumps (PyValue md) = Return m ->
    (forall v, lookup (make_key "t" v) (db w) = None) ->
    let fresh := {| thread_id := "t"; thread_ts := None |} in
    snd (put self fresh cp md w)
      = Return {| thread_id := "t"; thread_ts := Some (ts cp) |}
    /\ snd (get_tuple self fresh (fst (put self fresh cp md w)))
       = Return (Some {| config := fresh;
                         checkpoint := PyCheckpoint cp;
                         metadata := PyValue md;
                         parent_config := None |}).
Proof.
  intros V serde self cp md c m w RT A D E F.
  apply (first_put_then_latest V serde self "t" cp md c m w RT A eq_refl D E F).
Qed.

(** ** What one [put] changes *)

Lemma aput_returned_accepted (V : Type) (serde : JsonPlusSerializer V)
    (self : RedisSaver) (config : RunnableConfig)
    (cp : Checkpoint V) (md : V) (w : world) (r : RunnableConfig) :
  snd (aput self config cp md w) = Return r ->
  accepted_async (async_connection self) = true.
Proof.
  unfold aput, put_with, bind.
  destruct (_get_async_connection _ _ w) as [w' o] eqn:E.
  destruct o as [[]|e]; [|discriminate]. intros _.
  apply (async_returned_accepted unit _ (fun conn => put_body conn config cp md) w tt).
  rewrite E. reflexivity.
Qed.

Lemma put_method_scoped (V : Type) (serde : JsonPlusSerializer V)
    (f : flavour) (self : RedisSaver) (config : RunnableConfig)
    (cp : Checkpoint V) (md : V) (w : world) (r : RunnableConfig) :
  snd (put_method f self config cp md w) = Return r ->
  exists g connection,
    scoped g connection
    /\ put_method f self config cp md = put_with g connection config cp md.
Proof.
  destruct f; cbn [put_method]; intros H.
  - exists (@_get_sync_connection), (sync_connection self).
    split; [|reflexivity]. apply sync_scoped. eapply put_returned_accepted, H.
  - exists (@_get_async_connection), (async_connection self).
    split; [|reflexivity]. apply async_scoped. eapply aput_returned_accepted, H.
Qed.

(** C9, as the code has it.  A [put] or [aput] that returns has sent
    exactly one command, a single [HSET] carrying the three fields, to the
    key [checkpoint:{thread_id}:{ts}] (the trace grew by that command and
    at most the close of the client that sent it).  Afterwards the hash
    under that key holds the three fields as sent.  The record is a new
    one exactly when no record was stored under that key before (the
    number of records then grows by one; otherwise it stays the same and
    the fields of the record in place are replaced).  Under every other
    key the keyspace is as it was. *)
Theorem put_is_one_hset_and_frames_other_keys :
  forall (V : Type) (serde : JsonPlusSerializer V) (f : flavour)
         (self : RedisSaver) (config r : RunnableConfig)
         (cp : Checkpoint V) (md : V) (w w' : world),
    put_method f self config cp md w = (w', Return r) ->
    let key := make_key (thread_id config) (ts cp) in
    exists c m : string,
      dumps (PyCheckpoint cp) = Return c
      /\ dumps (PyValue md) = Return m
      /\ one_hset key (written_fields c m (parent_field config)) w w'
      /\ (exists h, lookup key (db w') = Some h
                    /\ lookup "checkpoint" h = Some c
                    /\ lookup "metadata" h = Some m
                    /\ lookup "parent_ts" h = Some (parent_field config))
      /\ List.length (db w')
         = match lookup key (db w) with
           | Some _ => List.length (db w)
           | None => S (List.length (db w))
           end
      /\ (forall k, k <> key -> lookup k (db w') = lookup k (db w)).
Proof.
  intros V serde f self config r cp md w w' H key.
  destruct (put_method_scoped V serde f self config cp md w r) as (g & cn & Sc & E).
  { rewrite H. reflexivity. }
  rewrite E in H.
  destruct (put_with_returned g cn config cp md w r Sc) as (c & m & D & Em).
  { rewrite H. reflexivity. }
  destruct (put_with_returns g cn config cp md c m w Sc D Em) as (_ & O).
  rewrite H in O. cbn [fst] in O. fold key in O.
  exists c, m. split; [exact D|]. split; [exact Em|]. split; [exact O|].
  destruct O as (Hdb & _). rewrite Hdb. unfold store_hset.
  split; [|split].
  - eexists. split; [apply lookup_upsert_same|].
    pose proof (written_fields_stored c m (parent_field config)
                  (match lookup key (db w) with Some h => h | None => [] end))
      as (Fc & Fm & Fp & _).
    auto.
  - apply length_upsert.
  - intros k N. apply lookup_upsert_other. exact N.
Qed.

(** C9, counterexample to the claim as stated.  The same version of the
    same thread is written twice through [put]; the second call returns,
    yet it adds no record (one record before, one after) and the record
    that was there has been overwritten. *)
Lemma put_same_version_twice_overwrites :
  Demo.result (put Demo.direct_saver (Demo.thread "t") (Demo.cp "v1" "again") "m")
    Demo.written_once
  = Return (Demo.at_version "t" "v1")
  /\ List.length (db Demo.written_once) = 1
  /\ List.length (db Demo.written_twice) = 1
  /\ lookup (make_key "t" "v1") (db Demo.written_once)
     = Some [("checkpoint", "C11|v1first"); ("metadata", "Vm"); ("parent_ts", "")]
  /\ lookup (make_key "t" "v1") (db Demo.written_twice)
     = Some [("checkpoint", "C11|v1again"); ("metadata", "Vm"); ("parent_ts", "")].
Proof. vm_compute. repeat split; reflexivity. Qed.

(** ** [list] and [alist] *)

Section Listing.

Context {V : Type} {serde : JsonPlusSerializer V}.

(** The loop of [list] tests the reply of [hgetall] for the [str] names
    ["checkpoint"] and ["metadata"]; the reply is keyed by bytes, so the
    test fails for every key and nothing is yielded. *)
Lemma yield_tuples_nothing (conn : client) (th : string) (ks : list string)
    (w : world) :
  snd (@yield_tuples V serde conn th ks w) = Return [].
Proof.
  revert w. induction ks as [|k ks IH]; intros w; [reflexivity|].
  cbn [yield_tuples]. unfold bind at 1, hgetall.
  unfold dict_contains. rewrite reply_lookup_str, andb_false_r. cbn [andb].
  apply IH.
Qed.

Lemma keys_before_run (b : RunnableConfig) (v : string) (ks : list string)
    (w : world) :
  thread_ts b = Some v ->
  keys_before b ks w
  = (w, Return (filter (fun k => String.ltb (Py.last_segment k) v) ks)).
Proof.
  intros E. induction ks as [|k ks IH]; [reflexivity|].
  cbn [keys_before filter]. rewrite E. unfold bind. rewrite IH.
  destruct (String.ltb _ v); reflexivity.
Qed.

(** Whatever the keyspace, the thread, the bound and the limit, a
    listing through an accepted connection ends without a single
    tuple. *)
Lemma list_with_yields_nothing (g : provider) (connection : connection_obj)
    (config : option RunnableConfig) (f : option (list (string * pyobj V)))
    (before : option RunnableConfig) (limit : option Z) (w : world) :
  scoped g connection ->
  (forall b, before = Some b -> thread_ts b <> None) ->
  snd (list_with g connection config f before limit w) = Return [].
Proof.
  intros Sc B. unfold list_with.
  match goal with
  | |- context [g _ connection ?b] =>
      destruct (Sc _ b w) as (conn & w0 & closes & _ & _ & _ & Ho & _ & _)
  end.
  rewrite Ho. unfold bind at 1, keys.
  destruct before as [b|].
  - destruct (thread_ts b) as [v|] eqn:E; [|destruct (B b eq_refl E)].
    unfold bind at 1. rewrite (keys_before_run b v _ _ E).
    apply yield_tuples_nothing.
  - unfold bind at 1, ret. apply yield_tuples_nothing.
Qed.

End Listing.

(** C10. The [filter] argument of [list] and [alist] has no effect: with
    the other arguments and the world fixed, every filter gives the run
    (yielded tuples, outcome and final world) that [filter=None] gives. *)
Theorem list_ignores_filter :
  forall (V : Type) (serde : JsonPlusSerializer V) (self : RedisSaver)
         (config : option RunnableConfig) (f : option (list (string * pyobj V)))
         (before : option RunnableConfig) (limit : option Z) (w : world),
    list_ self config f before limit w = list_ self config None before limit w
    /\ alist self config f before limit w = alist self config None before limit w.
Proof. intros. split; reflexivity. Qed.

(** ** Runs that depart from the specification *)

(** C1, evaluated.  Three chained writes to one thread with the strictly
    increasing version markers [t1 < t2 < t3]; the latest read, blocking
    or not, returns the record written with [t1], not [t3]: the keys are
    compared by what follows their last colon (["59"], ["30"], ["01"]),
    not by the version marker. *)
Theorem latest_read_compares_after_last_colon :
  String.ltb Demo.t1 Demo.t2 = true
  /\ String.ltb Demo.t2 Demo.t3 = true
  /\ map fst (db Demo.three_puts)
     = [make_key "t" Demo.t1; make_key "t" Demo.t2; make_key "t" Demo.t3]
  /\ map Py.last_segment (map fst (db Demo.three_puts)) = ["59"; "30"; "01"]
  /\ Demo.result (get_tuple Demo.pooled_saver (Demo.thread "t")) Demo.three_puts
     = Return (Some {| config := Demo.thread "t";
                       checkpoint := PyCheckpoint (Demo.cp Demo.t1 "first");
                       metadata := PyValue "m1";
                       parent_config := None |})
  /\ Demo.result (aget_tuple Demo.pooled_saver (Demo.thread "t")) Demo.three_puts
     = Return (Some {| config := Demo.thread "t";
                       checkpoint := PyCheckpoint (Demo.cp Demo.t1 "first");
                       metadata := PyValue "m1";
                       parent_config := None |}).
Proof. vm_compute. repeat split; reflexivity. Qed.

(** C2, evaluated.  Five records written by [put] to one thread, each
    with its three fields (the fifth reads back through [get_tuple]);
    [list(thread, limit=3)] and [alist(thread, limit=3)] end without
    yielding any tuple, where three are expected. *)
Theorem list_with_limit_yields_nothing :
  map fst (db Demo.five_puts)
  = [make_key "t" "v1"; make_key "t" "v2"; make_key "t" "v3";
     make_key "t" "v4"; make_key "t" "v5"]
  /\ Demo.result (get_tuple Demo.pooled_saver (Demo.at_version "t" "v5")) Demo.five_puts
     = Return (Some {| config := Demo.at_version "t" "v5";
                       checkpoint := PyCheckpoint (Demo.cp "v5" "e");
                       metadata := PyValue "m5";
                       parent_config := Some (Demo.at_version "t" "v4") |})
  /\ Demo.result (list_ Demo.pooled_saver (Some (Demo.thread "t")) None None (Some 3%Z))
       Demo.five_puts
     = Return []
  /\ Demo.result (alist Demo.pooled_saver (Some (Demo.thread "t")) None None (Some 3%Z))
       Demo.five_puts
     = Return [].
Proof. vm_compute. repeat split; reflexivity. Qed.

(** C3, evaluated.  On the same five records, [list(thread, before=id)]
    with [id] at version ["v3"] ends without yielding any tuple, although
    the records at ["v1"] and ["v2"] are fully written and strictly
    older; so does [alist]. *)
Theorem list_before_yields_nothing :
  String.ltb "v1" "v3" = true
  /\ String.ltb "v2" "v3" = true
  /\ Demo.result (get_tuple Demo.pooled_saver (Demo.at_version "t" "v2")) Demo.five_puts
     = Return (Some {| config := Demo.at_version "t" "v2";
                       checkpoint := PyCheckpoint (Demo.cp "v2" "b");
                       metadata := PyValue "m2";
                       parent_config := Some (Demo.at_version "t" "v1") |})
  /\ Demo.result (list_ Demo.pooled_saver (Some (Demo.thread "t")) None
                    (Some (Demo.at_version "t" "v3")) None)
       Demo.five_puts
     = Return []
  /\ Demo.result (alist Demo.pooled_saver (Some (Demo.thread "t")) None
                    (Some (Demo.at_version "t" "v3")) None)
       Demo.five_puts
     = Return [].
Proof. vm_compute. repeat split; reflexivity. Qed.

(** The [before] test of [list] has the same reading of keys as the
    latest read: bounded by the version [t3], it drops the keys of [t1]
    and [t2], which are older, and keeps the key of [t3] itself. *)
Lemma before_filter_compares_after_last_colon :
  snd (keys_before (Demo.at_version "t" Demo.t3)
         (map fst (db Demo.three_puts)) Demo.three_puts)
  = Return [make_key "t" Demo.t3].
Proof. vm_compute. reflexivity. Qed.

(** On a saver without an accepted connection every method raises the
    provider's [ValueError] and leaves the world as it was. *)
Lemma methods_raise_without_connection (V : Type) (serde : JsonPlusSerializer V)
    (self : RedisSaver) (config : RunnableConfig) (cp : Checkpoint V) (md : V)
    (w : world) :
  accepted_sync (sync_connection self) = false ->
  put self config cp md w = (w, Raise (ValueError "Invalid sync connection object."))
  /\ get_tuple self config w = (w, Raise (ValueError "Invalid sync connection object."))
  /\ list_ self (Some config) None None None w
     = (w, Raise (ValueError "Invalid sync connection object.")).
Proof.
  intros H.
  unfold put, put_with, get_tuple, get_tuple_with, list_, list_with, bind.
  destruct (sync_connection self); try discriminate H; repeat split; reflexivity.
Qed.

(** * Instances of the conditional statements *)

Lemma chained_put_links_parent_witness :
  round_trips Demo.demo_serde
  /\ exists t : CheckpointTuple string,
       snd (get_tuple Demo.direct_saver (Demo.at_version "t" "v2") Demo.chain_second)
         = Return (Some t)
       /\ parent_config t
          = Some {| thread_id := "t"; thread_ts := Some "v1" |}
       /\ Some "v1" = Some "v1"
       /\ checkpoint t = PyCheckpoint (Demo.cp "v2" "b")
       /\ metadata t = PyValue "m2".
Proof.
  split; [exact demo_round_trips|].
  apply (chained_put_links_parent string Demo.demo_serde Demo.direct_saver
           (Demo.thread "t") (Demo.at_version "t" "v1") (Demo.at_version "t" "v2")
           (Demo.cp "v1" "a") (Demo.cp "v2" "b") "m1" "m2"
           Demo.other_thread Demo.chain_first Demo.chain_second
           demo_round_trips).
  - discriminate.
  - discriminate.
  - vm_compute. reflexivity.
  - vm_compute. reflexivity.
Defined.

Lemma first_put_on_fresh_thread_reads_back_witness :
  (forall v, lookup (make_key "t" v) (db Demo.other_thread) = None)
  /\ snd (put Demo.direct_saver (Demo.thread "t") (Demo.cp "v1" "a") "m1" Demo.other_thread)
     = Return (Demo.at_version "t" "v1")
  /\ snd (get_tuple Demo.direct_saver (Demo.thread "t")
            (fst (put Demo.direct_saver (Demo.thread "t") (Demo.cp "v1" "a") "m1"
                    Demo.other_thread)))
     = Return (Some {| config := Demo.thread "t";
                       checkpoint := PyCheckpoint (Demo.cp "v1" "a");
                       metadata := PyValue "m1";
                       parent_config := None |}).
Proof.
  split; [intros v; reflexivity|].
  apply (first_put_on_fresh_thread_reads_back string Demo.demo_serde Demo.direct_saver
           (Demo.cp "v1" "a") "m1" "C11|v1a" "Vm1" Demo.other_thread
           demo_round_trips).
  - reflexivity.
  - reflexivity.
  - reflexivity.
  - intros v. reflexivity.
Defined.

Lemma invalid_source_raises_before_any_command_witness :
  accepted_sync NoneObj = false
  /\ accepted_async NoneObj = false
  /\ _get_sync_connection NoneObj (fun conn => hgetall conn "k") Demo.three_puts
     = (Demo.three_puts, Raise (ValueError "Invalid sync connection object."))
  /\ _get_async_connection NoneObj (fun conn => hgetall conn "k") Demo.three_puts
     = (Demo.three_puts, Raise (ValueError "Invalid async connection object.")).
Proof.
  destruct (invalid_source_raises_before_any_command pydict
              (fun conn => hgetall conn "k") Demo.three_puts NoneObj) as [Hs Ha].
  split; [reflexivity|]. split; [reflexivity|].
  split; [apply Hs; reflexivity|apply Ha; reflexivity].
Defined.

Lemma put_is_one_hset_and_frames_other_keys_witness :
  exists c m : string,
    dumps (PyCheckpoint (Demo.cp "v1" "a")) = Return c
    /\ dumps (PyValue "m1") = Return m
    /\ one_hset (make_key "t" "v1") (written_fields c m "")
         Demo.other_thread Demo.chain_first
    /\ (exists h, lookup (make_key "t" "v1") (db Demo.chain_first) = Some h
                  /\ lookup "checkpoint" h = Some c
                  /\ lookup "metadata" h = Some m
                  /\ lookup "parent_ts" h = Some "")
    /\ List.length (db Demo.chain_first) = 2
    /\ (forall k, k <> make_key "t" "v1" ->
          lookup k (db Demo.chain_first) = lookup k (db Demo.other_thread)).
Proof.
  apply (put_is_one_hset_and_frames_other_keys string Demo.demo_serde Blocking
           Demo.direct_saver (Demo.thread "t") (Demo.at_version "t" "v1")
           (Demo.cp "v1" "a") "m1" Demo.other_thread Demo.chain_first).
  vm_compute. reflexivity.
Defined.

(** * Further properties of the saver *)

(** ** Reading a record *)

Section Reading.

Context {V : Type} {serde : JsonPlusSerializer V}.

(** [read_tuple] sends one [HGETALL]; its outcome is decided by the hash
    under the key. *)
Lemma read_tuple_decodes (conn : client) (config : RunnableConfig)
    (key : string) (w : world) :
  read_tuple conn config key w
  = (record (Issued conn (HGETALL key)) w,
     decode_reply config (reply (hash_at key (db w)))).
Proof.
  unfold read_tuple, decode_reply, hash_at, bind at 1, hgetall.
  destruct (negb (dict_truthy _)); [reflexivity|].
  unfold bind at 1, dict_getitem.
  destruct (dict_lookup (KBytes "checkpoint") _) as [c|]; [|reflexivity].
  cbn [ret]. unfold bind at 1, lift.
  destruct (loads c false) as [co|e]; [|reflexivity].
  unfold bind at 1.
  destruct (dict_lookup (KBytes "metadata") _) as [m|]; [|reflexivity].
  cbn [ret]. unfold bind at 1.
  destruct (loads m false) as [mo|e]; reflexivity.
Qed.

(** The outcome of the whole body of [get_tuple] on a client. *)
Lemma get_tuple_body_outcome (conn : client) (config : RunnableConfig) (w : world) :
  snd ((key <- resolve_key conn config ;;
        match key with
        | None => ret None
        | Some key => read_tuple conn config key
        end) w)
  = match snd (resolve_key conn config w) with
    | Return (Some key) => decode_reply config (reply (hash_at key (db w)))
    | Return None => Return None
    | Raise e => Raise e
    end
  /\ db (fst (resolve_key conn config w)) = db w.
Proof.
  unfold bind at 1, resolve_key.
  destruct (thread_ts config) as [t|]; [destruct (Py.truthy t)|];
    cbn [ret bind keys fst snd record db];
    try (destruct (Py.max_by _ _) as [k|]);
    cbn [ret fst snd]; try rewrite read_tuple_decodes; cbn [fst snd record db];
    split; reflexivity.
Qed.

End Reading.

(** ** Outcomes through the providers *)

(** The outcome of a scoped run is the outcome of the body on some client,
    in a world with the same keyspace; on a source that is not accepted it
    is the provider's error. *)
Lemma provider_outcome (f : flavour) (c : connection_obj) (A : Type)
    (body : client -> M A) (w : world) :
  exists (conn : client) (w0 : world),
    (db w0 = db w /\ trace w0 = trace w)
    /\ provider_of f A c body w
       = if accepted f c
         then (match conn with
               | Borrowed _ => fst (body conn w0)
               | Leased _ _ => record (Closed conn) (fst (body conn w0))
               end, snd (body conn w0))
         else (w, Raise (ValueError (invalid_message f))).
Proof.
  destruct f, c; cbn [provider_of accepted accepted_sync accepted_async invalid_message];
    try (exists (Borrowed 0), w; repeat split; reflexivity).
  - exists (Borrowed c), w. rewrite sync_direct_run.
    destruct (body _ w); repeat split; reflexivity.
  - exists (Leased p (clients w)), (fst (new_client p w)).
    rewrite sync_pool_run. repeat split; reflexivity.
  - exists (Borrowed c), w. rewrite async_direct_run.
    destruct (body _ w); repeat split; reflexivity.
  - exists (Leased p (clients w)), (fst (new_client p w)).
    rewrite async_pool_run. repeat split; reflexivity.
Qed.

Section Outcomes.

Context {V : Type} {serde : JsonPlusSerializer V}.

Lemma get_tuple_method_with (f : flavour) (self : RedisSaver) :
  get_tuple_method f self
  = get_tuple_with (provider_of f) (connection_of f self).
Proof. destruct f; reflexivity. Qed.

Lemma put_method_with (f : flavour) (self : RedisSaver) :
  put_method f self = put_with (provider_of f) (connection_of f self).
Proof. destruct f; reflexivity. Qed.

Lemma list_method_with (f : flavour) (self : RedisSaver) :
  list_method f self = list_with (provider_of f) (connection_of f self).
Proof. destruct f; reflexivity. Qed.

Lemma resolve_key_resolved (conn : client) (config : RunnableConfig) (w : world) :
  snd (resolve_key conn config w) = Return (resolved config (db w)).
Proof.
  unfold resolve_key, resolved, thread_keys.
  destruct (thread_ts config) as [t|]; [cbn [Py.truthy_opt]; destruct (Py.truthy t)|];
    reflexivity.
Qed.

(** The outcome of [get_tuple] and [aget_tuple] as a function of the
    keyspace. *)
Lemma get_tuple_outcome (f : flavour) (self : RedisSaver)
    (config : RunnableConfig) (w : world) :
  snd (get_tuple_method f self config w)
  = if accepted f (connection_of f self)
    then match resolved config (db w) with
         | Some key => decode_reply config (reply (hash_at key (db w)))
         | None => Return None
         end
    else Raise (ValueError (invalid_message f)).
Proof.
  rewrite get_tuple_method_with. unfold get_tuple_with.
  match goal with
  | |- context [provider_of f _ _ ?b w] =>
      destruct (provider_outcome f (connection_of f self) _ b w)
        as (conn & w0 & (Hdb & _) & ->)
  end.
  destruct (accepted f _); [|reflexivity]. cbn [snd].
  destruct (get_tuple_body_outcome conn config w0) as [-> _].
  rewrite resolve_key_resolved, Hdb. reflexivity.
Qed.

End Outcomes.

(** ** Reads of records that are absent, partial or corrupt *)

Lemma resolved_exact (config : RunnableConfig) (t : string) (d : store) :
  thread_ts config = Some t -> t <> "" ->
  resolved config d = Some (make_key (thread_id config) t).
Proof.
  intros E N. unfold resolved. rewrite E. cbn [Py.truthy_opt].
  rewrite (truthy_nonempty t N). reflexivity.
Qed.

Lemma resolved_latest (config : RunnableConfig) (d : store) :
  Py.truthy_opt (thread_ts config) = false ->
  resolved config d = Py.max_by Py.last_segment (thread_keys (thread_id config) d).
Proof. intros E. unfold resolved. rewrite E. reflexivity. Qed.

(** X1. A read that finds nothing returns [None] and raises nothing: at
    an explicit version under whose key no record is stored, and at the
    latest version of a thread whose pattern matches no key.  Both forms
    of the method, on an accepted connection. *)
Theorem get_tuple_of_missing_record_is_none :
  forall (V : Type) (serde : JsonPlusSerializer V) (f : flavour)
         (self : RedisSaver) (config : RunnableConfig) (w : world),
    accepted f (connection_of f self) = true ->
    (forall t, thread_ts config = Some t -> t <> "" ->
       lookup (make_key (thread_id config) t) (db w) = None ->
       snd (get_tuple_method f self config w) = Return None)
    /\ (Py.truthy_opt (thread_ts config) = false ->
        thread_keys (thread_id config) (db w) = [] ->
        snd (get_tuple_method f self config w) = Return None).
Proof.
  intros V serde f self config w A. rewrite get_tuple_outcome, A. split.
  - intros t E N L. rewrite (resolved_exact config t _ E N).
    unfold hash_at. rewrite L. reflexivity.
  - intros E K. rewrite (resolved_latest config _ E), K. reflexivity.
Qed.

(** X2. A record that is stored but cannot be read makes [get_tuple]
    raise, not return [None]: [KeyError] on the bytes name of a missing
    [checkpoint] field, [KeyError] on a missing [metadata] field (once the
    checkpoint decoded), and the serializer's error when the checkpoint
    text does not decode. *)
Theorem get_tuple_of_partial_record_raises :
  forall (V : Type) (serde : JsonPlusSerializer V) (f : flavour)
         (self : RedisSaver) (config : RunnableConfig) (t : string)
         (h : hash) (w : world),
    accepted f (connection_of f self) = true ->
    thread_ts config = Some t -> t <> "" ->
    lookup (make_key (thread_id config) t) (db w) = Some h ->
    h <> [] ->
    (lookup "checkpoint" h = None ->
       snd (get_tuple_method f self config w) = Raise (KeyError (KBytes "checkpoint")))
    /\ (forall c, lookup "checkpoint" h = Some c -> super_loads c = None ->
          snd (get_tuple_method f self config w) = Raise SerializerError)
    /\ (forall c co, lookup "checkpoint" h = Some c -> super_loads c = Some co ->
          lookup "metadata" h = None ->
          snd (get_tuple_method f self config w) = Raise (KeyError (KBytes "metadata"))).
Proof.
  intros V serde f self config t h w A E N L Hne.
  rewrite get_tuple_outcome, A, (resolved_exact config t _ E N).
  unfold hash_at, decode_reply, loads. rewrite L, (reply_truthy h Hne).
  cbn [negb]. rewrite !reply_lookup_bytes.
  split; [|split].
  - intros ->. reflexivity.
  - intros c -> ->. reflexivity.
  - intros c co -> -> ->. reflexivity.
Qed.

(** X3. The [parent_ts] field is optional on reading: a record whose
    checkpoint and metadata decode, and whose [parent_ts] field is absent
    or empty, reads as a tuple without parent. *)
Theorem get_tuple_without_parent_field :
  forall (V : Type) (serde : JsonPlusSerializer V) (f : flavour)
         (self : RedisSaver) (config : RunnableConfig) (t : string)
         (h : hash) (c m : string) (co mo : pyobj V) (w : world),
    accepted f (connection_of f self) = true ->
    thread_ts config = Some t -> t <> "" ->
    lookup (make_key (thread_id config) t) (db w) = Some h ->
    lookup "checkpoint" h = Some c -> super_loads c = Some co ->
    lookup "metadata" h = Some m -> super_loads m = Some mo ->
    lookup "parent_ts" h = None \/ lookup "parent_ts" h = Some "" ->
    snd (get_tuple_method f self config w)
    = Return (Some {| config := config; checkpoint := co; metadata := mo;
                      parent_config := None |}).
Proof.
  intros V serde f self config t h c m co mo w A E N L Hc Lc Hm Lm Hp.
  rewrite get_tuple_outcome, A, (resolved_exact config t _ E N).
  unfold hash_at, decode_reply, loads, dict_get. rewrite L.
  rewrite reply_truthy by (destruct h; [discriminate Hc|discriminate]).
  cbn [negb]. rewrite !reply_lookup_bytes, Hc, Lc, Hm, Lm.
  destruct Hp as [-> | ->]; reflexivity.
Qed.

(** X4. Whatever [get_tuple] returns comes from one stored record and is
    tied to the identity asked: the tuple carries the caller's identity
    unchanged (so no version after a latest read), its checkpoint and
    metadata are the decodings of the two fields of a record of the
    keyspace, and its parent, when there is one, names the same thread and
    a non-empty version, the stored [parent_ts]. *)
Theorem get_tuple_returns_what_is_stored :
  forall (V : Type) (serde : JsonPlusSerializer V) (f : flavour)
         (self : RedisSaver) (cfg : RunnableConfig) (w : world)
         (t : CheckpointTuple V),
    snd (get_tuple_method f self cfg w) = Return (Some t) ->
    config t = cfg
    /\ exists (key : string) (h : hash) (c m : string),
         lookup key (db w) = Some h
         /\ lookup "checkpoint" h = Some c /\ super_loads c = Some (checkpoint t)
         /\ lookup "metadata" h = Some m /\ super_loads m = Some (metadata t)
         /\ (parent_config t = None
             \/ exists p, p <> "" /\ lookup "parent_ts" h = Some p
                  /\ parent_config t
                     = Some {| thread_id := thread_id cfg; thread_ts := Some p |}).
Proof.
  intros V serde f self cfg w t. rewrite get_tuple_outcome.
  destruct (accepted f _); [|discriminate].
  destruct (resolved cfg (db w)) as [key|]; [|discriminate].
  unfold decode_reply, hash_at, loads, dict_get.
  destruct (lookup key (db w)) as [h|] eqn:L; [|discriminate].
  destruct (negb (dict_truthy (reply h))); [discriminate|].
  rewrite !reply_lookup_bytes.
  destruct (lookup "checkpoint" h) as [c|] eqn:Hc; [|discriminate].
  destruct (super_loads c) as [co|] eqn:Lc; [|discriminate].
  destruct (lookup "metadata" h) as [m|] eqn:Hm; [|discriminate].
  destruct (super_loads m) as [mo|] eqn:Lm; [|discriminate].
  intros H. injection H as <-. cbn [config checkpoint metadata parent_config].
  split; [reflexivity|].
  exists key, h, c, m. repeat (split; [assumption|]).
  destruct (lookup "parent_ts" h) as [p|]; [|left; reflexivity].
  destruct p as [|a p]; [left; reflexivity|right].
  exists (String a p). repeat split. discriminate.
Qed.

(** ** What the runs of the methods do to the world *)

Section Preservation.

Variable R : world -> world -> Prop.
Hypothesis R_refl : forall w, R w w.
Hypothesis R_trans : forall w1 w2 w3, R w1 w2 -> R w2 w3 -> R w1 w3.

Lemma preserves_ret (A : Type) (a : A) : preserves R (ret a).
Proof. intros w. apply R_refl. Qed.

Lemma preserves_raise (A : Type) (e : exn) : preserves R (@raise A e).
Proof. intros w. apply R_refl. Qed.

Lemma preserves_lift (A : Type) (o : outcome A) : preserves R (lift o).
Proof. intros w. apply R_refl. Qed.

Lemma preserves_bind (A B : Type) (m : M A) (k : A -> M B) :
  preserves R m -> (forall a, preserves R (k a)) -> preserves R (bind m k).
Proof.
  intros Hm Hk w. unfold bind. specialize (Hm w).
  destruct (m w) as [w1 [a|e]]; cbn [fst] in *; [|exact Hm].
  apply (R_trans _ _ _ Hm). apply Hk.
Qed.

Lemma preserves_dict_getitem (k : pykey) (d : pydict) :
  preserves R (dict_getitem k d).
Proof.
  unfold dict_getitem. destruct (dict_lookup k d);
    [apply preserves_ret|apply preserves_raise].
Qed.

Context {V : Type} {serde : JsonPlusSerializer V}.

Variable conn : client.
Hypothesis R_keys : forall p, preserves R (keys conn p).
Hypothesis R_hgetall : forall k, preserves R (hgetall conn k).

Lemma preserves_resolve_key (config : RunnableConfig) :
  preserves R (resolve_key conn config).
Proof.
  unfold resolve_key.
  destruct (thread_ts config) as [t|]; [destruct (Py.truthy t)|];
    try apply preserves_ret;
    (apply preserves_bind; [apply R_keys|intros; apply preserves_ret]).
Qed.

Lemma preserves_read_tuple (config : RunnableConfig) (key : string) :
  preserves R (read_tuple conn config key).
Proof.
  unfold read_tuple. apply preserves_bind; [apply R_hgetall|]. intros d.
  destruct (negb (dict_truthy d)); [apply preserves_ret|].
  apply preserves_bind; [apply preserves_dict_getitem|]. intros c.
  apply preserves_bind; [apply preserves_lift|]. intros co.
  apply preserves_bind; [apply preserves_dict_getitem|]. intros m.
  apply preserves_bind; [apply preserves_lift|]. intros mo.
  apply preserves_ret.
Qed.

Lemma preserves_get_tuple_body (config : RunnableConfig) :
  preserves R (key <- resolve_key conn config ;;
               match key with
               | None => ret None
               | Some key => read_tuple conn config key
               end).
Proof.
  apply preserves_bind; [apply preserves_resolve_key|].
  intros [key|]; [apply preserves_read_tuple|apply preserves_ret].
Qed.

Lemma preserves_keys_before (b : RunnableConfig) (ks : list string) :
  preserves R (keys_before b ks).
Proof.
  induction ks as [|k ks IH]; cbn [keys_before]; [apply preserves_ret|].
  destruct (thread_ts b); [|apply preserves_raise].
  apply preserves_bind; [exact IH|intros; apply preserves_ret].
Qed.

Lemma preserves_yield_tuples (th : string) (ks : list string) :
  preserves R (@yield_tuples V serde conn th ks).
Proof.
  induction ks as [|k ks IH]; cbn [yield_tuples]; [apply preserves_ret|].
  apply preserves_bind; [apply R_hgetall|]. intros d.
  destruct (dict_truthy d && dict_contains (KStr "checkpoint") d
            && dict_contains (KStr "metadata") d); [|exact IH].
  apply preserves_bind; [apply preserves_dict_getitem|]. intros c.
  apply preserves_bind; [apply preserves_lift|]. intros co.
  apply preserves_bind; [apply preserves_dict_getitem|]. intros m.
  apply preserves_bind; [apply preserves_lift|]. intros mo.
  apply preserves_bind; [exact IH|intros; apply preserves_ret].
Qed.

Lemma preserves_list_body (th : string) (before : option RunnableConfig)
    (limit : option Z) :
  preserves R
    (keys0 <- keys conn ("checkpoint:" ++ th ++ ":*")%string ;;
     keys1 <- match before with
              | Some b => keys_before b keys0
              | None => ret keys0
              end ;;
     let keys2 := Py.sorted_desc Py.last_segment keys1 in
     let keys3 :=
       match limit with
       | Some n => if (n =? 0)%Z then keys2 else Py.slice_to n keys2
       | None => keys2
       end in
     @yield_tuples V serde conn th keys3).
Proof.
  apply preserves_bind; [apply R_keys|]. intros keys0.
  apply preserves_bind.
  - destruct before; [apply preserves_keys_before|apply preserves_ret].
  - intros keys1. apply preserves_yield_tuples.
Qed.

Hypothesis R_hset : forall k m, preserves R (hset conn k m).

Lemma preserves_put_body (config : RunnableConfig) (cp : Checkpoint V) (md : V) :
  preserves R (put_body conn config cp md).
Proof.
  unfold put_body.
  apply preserves_bind; [apply preserves_lift|]. intros c.
  apply preserves_bind; [apply preserves_lift|]. intros m.
  apply R_hset.
Qed.

End Preservation.

Lemma read_only_refl (w : world) : read_only w w.
Proof.
  split; [reflexivity|]. exists []. split; [symmetry; apply app_nil_r|constructor].
Qed.

Lemma read_only_trans (w1 w2 w3 : world) :
  read_only w1 w2 -> read_only w2 w3 -> read_only w1 w3.
Proof.
  intros (D1 & e1 & T1 & F1) (D2 & e2 & T2 & F2).
  split; [congruence|]. exists (e1 ++ e2). split.
  - rewrite T2, T1, app_assoc. reflexivity.
  - apply Forall_app. split; assumption.
Qed.

Lemma read_only_event (e : event) (w : world) :
  match e with Issued _ cmd => is_read cmd = true | Closed _ => True end ->
  read_only w (record e w).
Proof.
  intros H. split; [reflexivity|]. exists [e]. split; [reflexivity|].
  constructor; [exact H|constructor].
Qed.

Lemma read_only_keys (conn : client) (p : string) : preserves read_only (keys conn p).
Proof. intros w. apply (read_only_event (Issued conn (KEYS p))). reflexivity. Qed.

Lemma read_only_hgetall (conn : client) (k : string) :
  preserves read_only (hgetall conn k).
Proof. intros w. apply (read_only_event (Issued conn (HGETALL k))). reflexivity. Qed.

(** A provider keeps a run read-only when the body is. *)
Lemma read_only_provider (f : flavour) (c : connection_obj) (A : Type)
    (body : client -> M A) :
  (forall conn, preserves read_only (body conn)) ->
  preserves read_only (provider_of f A c body).
Proof.
  intros Hb w.
  destruct (provider_outcome f c A body w) as (conn & w0 & _ & E).
  destruct f, c; cbn [provider_of accepted accepted_sync accepted_async] in *;
    try (rewrite E; apply read_only_refl).
  - rewrite sync_direct_run. apply Hb.
  - rewrite sync_pool_run. cbn [fst].
    eapply read_only_trans; [|apply (read_only_event (Closed _)); exact I].
    eapply read_only_trans; [|apply Hb].
    split; [reflexivity|]. exists []. split; [symmetry; apply app_nil_r|constructor].
  - rewrite async_direct_run. apply Hb.
  - rewrite async_pool_run. cbn [fst].
    eapply read_only_trans; [|apply (read_only_event (Closed _)); exact I].
    eapply read_only_trans; [|apply Hb].
    split; [reflexivity|]. exists []. split; [symmetry; apply app_nil_r|constructor].
Qed.

(** X5. The reading methods never write: after [get_tuple],
    [aget_tuple], [list] or [alist], whatever their arguments, connection
    and outcome, the keyspace is what it was, and every event added to the
    trace is a [KEYS] or [HGETALL] command or a close. *)
Theorem reading_methods_never_write :
  forall (V : Type) (serde : JsonPlusSerializer V) (f : flavour)
         (self : RedisSaver) (config : RunnableConfig)
         (among : option RunnableConfig) (flt : option (list (string * pyobj V)))
         (before : option RunnableConfig) (limit : option Z) (w : world),
    read_only w (fst (get_tuple_method f self config w))
    /\ read_only w (fst (list_method f self among flt before limit w)).
Proof.
  intros V serde f self config among flt before limit w. split.
  - rewrite get_tuple_method_with. unfold get_tuple_with.
    apply read_only_provider. intros conn.
    apply (preserves_get_tuple_body read_only read_only_refl read_only_trans conn
             (read_only_keys conn) (read_only_hgetall conn)).
  - rewrite list_method_with. unfold list_with.
    apply read_only_provider. intros conn.
    apply (preserves_list_body read_only read_only_refl read_only_trans conn
             (read_only_keys conn) (read_only_hgetall conn)).
Qed.

Lemma issued_by_refl (conn : client) (w : world) : issued_by conn w w.
Proof. split; [reflexivity|]. exists []. symmetry. apply app_nil_r. Qed.

Lemma issued_by_trans (conn : client) (w1 w2 w3 : world) :
  issued_by conn w1 w2 -> issued_by conn w2 w3 -> issued_by conn w1 w3.
Proof.
  intros (C1 & c1 & T1) (C2 & c2 & T2). split; [congruence|].
  exists (c1 ++ c2). rewrite T2, T1, map_app, app_assoc. reflexivity.
Qed.

Lemma issued_by_keys (conn : client) (p : string) :
  preserves (issued_by conn) (keys conn p).
Proof. intros w. split; [reflexivity|]. exists [KEYS p]. reflexivity. Qed.

Lemma issued_by_hgetall (conn : client) (k : string) :
  preserves (issued_by conn) (hgetall conn k).
Proof. intros w. split; [reflexivity|]. exists [HGETALL k]. reflexivity. Qed.

Lemma issued_by_hset (conn : client) (k : string) (m : list (string * string)) :
  preserves (issued_by conn) (hset conn k m).
Proof.
  intros w. unfold hset. destruct m as [|fv m]; [apply issued_by_refl|].
  split; [reflexivity|]. exists [HSET k (fv :: m)]. reflexivity.
Qed.

(** The three bodies send their commands through the client they are
    given. *)
Lemma bodies_issued_by (V : Type) (serde : JsonPlusSerializer V) (conn : client)
    (config : RunnableConfig) (cp : Checkpoint V) (md : V) (th : string)
    (before : option RunnableConfig) (limit : option Z) :
  preserves (issued_by conn) (put_body conn config cp md)
  /\ preserves (issued_by conn)
       (key <- resolve_key conn config ;;
        match key with
        | None => ret None
        | Some key => read_tuple conn config key
        end)
  /\ preserves (issued_by conn)
       (keys0 <- keys conn ("checkpoint:" ++ th ++ ":*")%string ;;
        keys1 <- match before with
                 | Some b => keys_before b keys0
                 | None => ret keys0
                 end ;;
        let keys2 := Py.sorted_desc Py.last_segment keys1 in
        let keys3 :=
          match limit with
          | Some n => if (n =? 0)%Z then keys2 else Py.slice_to n keys2
          | None => keys2
          end in
        @yield_tuples V serde conn th keys3).
Proof.
  split; [|split].
  - apply (preserves_put_body _ (issued_by_refl conn) (issued_by_trans conn) conn
             (issued_by_hset conn)).
  - apply (preserves_get_tuple_body _ (issued_by_refl conn) (issued_by_trans conn) conn
             (issued_by_keys conn) (issued_by_hgetall conn)).
  - apply (preserves_list_body _ (issued_by_refl conn) (issued_by_trans conn) conn
             (issued_by_keys conn) (issued_by_hgetall conn)).
Qed.

Lemma pool_run (f : flavour) (p : nat) (A : Type) (body : client -> M A) (w : world) :
  preserves (issued_by (Leased p (clients w))) (body (Leased p (clients w))) ->
  leased_run p w (fst (provider_of f A (pool_of f p) body w)).
Proof.
  intros Hb.
  assert (E : fst (provider_of f A (pool_of f p) body w)
              = record (Closed (Leased p (clients w)))
                  (fst (body (Leased p (clients w)) (fst (new_client p w))))).
  { destruct f; cbn [provider_of pool_of];
      [rewrite sync_pool_run|rewrite async_pool_run]; reflexivity. }
  rewrite E. destruct (Hb (fst (new_client p w))) as (C & cmds & T).
  set (w1 := fst (body (Leased p (clients w)) (fst (new_client p w)))) in *.
  split; [exact C|]. exists cmds.
  change (trace w1 ++ [Closed (Leased p (clients w))]
          = trace w ++ map (Issued (Leased p (clients w))) cmds
                    ++ [Closed (Leased p (clients w))]).
  rewrite T, <- app_assoc. reflexivity.
Qed.

Lemma direct_run (f : flavour) (c : nat) (A : Type) (body : client -> M A) (w : world) :
  provider_of f A (direct_of f c) body w = body (Borrowed c) w.
Proof.
  destruct f; cbn [provider_of direct_of];
    [apply sync_direct_run|apply async_direct_run].
Qed.

(** X6. On a pool every method call builds exactly one client, sends all
    its commands through that client and closes it as its last event,
    whether the call returns or raises: [put], [get_tuple], [list] and
    their coroutine forms. *)
Theorem methods_on_a_pool_close_their_client :
  forall (V : Type) (serde : JsonPlusSerializer V) (f : flavour)
         (self : RedisSaver) (p : nat) (config : RunnableConfig)
         (cp : Checkpoint V) (md : V)
         (among : option RunnableConfig) (flt : option (list (string * pyobj V)))
         (before : option RunnableConfig) (limit : option Z) (w : world),
    connection_of f self = pool_of f p ->
    leased_run p w (fst (put_method f self config cp md w))
    /\ leased_run p w (fst (get_tuple_method f self config w))
    /\ leased_run p w (fst (list_method f self among flt before limit w)).
Proof.
  intros V serde f self p config cp md among flt before limit w E.
  rewrite put_method_with, get_tuple_method_with, list_method_with, E.
  unfold put_with, get_tuple_with, list_with.
  pose proof (fun th => bodies_issued_by V serde (Leased p (clients w))
                config cp md th before limit) as B.
  split; [|split].
  - unfold bind.
    pose proof (pool_run f p unit (fun conn => put_body conn config cp md) w
                  (proj1 (B ""))) as H.
    destruct (provider_of f unit _ _ w) as [w' [[]|e]]; exact H.
  - apply pool_run. apply (B "").
  - apply pool_run. apply B.
Qed.

(** X7. On a client supplied by the caller no method builds a client or
    closes anything: every event a call adds to the trace is a command
    sent through that client. *)
Theorem methods_on_a_direct_client_never_close :
  forall (V : Type) (serde : JsonPlusSerializer V) (f : flavour)
         (self : RedisSaver) (c : nat) (config : RunnableConfig)
         (cp : Checkpoint V) (md : V)
         (among : option RunnableConfig) (flt : option (list (string * pyobj V)))
         (before : option RunnableConfig) (limit : option Z) (w : world),
    connection_of f self = direct_of f c ->
    issued_by (Borrowed c) w (fst (put_method f self config cp md w))
    /\ issued_by (Borrowed c) w (fst (get_tuple_method f self config w))
    /\ issued_by (Borrowed c) w (fst (list_method f self among flt before limit w)).
Proof.
  intros V serde f self c config cp md among flt before limit w E.
  rewrite put_method_with, get_tuple_method_with, list_method_with, E.
  unfold put_with, get_tuple_with, list_with.
  pose proof (fun th => bodies_issued_by V serde (Borrowed c)
                config cp md th before limit) as B.
  split; [|split].
  - unfold bind. rewrite direct_run.
    pose proof (proj1 (B "") w) as H.
    destruct (put_body _ _ _ _ w) as [w' [[]|e]]; exact H.
  - rewrite direct_run. apply (B "").
  - rewrite direct_run. apply B.
Qed.

(** ** What [put] leaves behind *)

Section Writing.

Context {V : Type} {serde : JsonPlusSerializer V}.

(** The outcome of [put] and [aput], the keyspace and the trace they
    leave, by cases on the connection and on the two serializations. *)
Lemma put_method_run (f : flavour) (self : RedisSaver) (config : RunnableConfig)
    (cp : Checkpoint V) (md : V) (w : world) :
  let key := make_key (thread_id config) (ts cp) in
  let w' := fst (put_method f self config cp md w) in
  let r := snd (put_method f self config cp md w) in
  if accepted f (connection_of f self) then
    match dumps (PyCheckpoint cp), dumps (PyValue md) with
    | Return c, Return m =>
        r = Return {| thread_id := thread_id config; thread_ts := Some (ts cp) |}
        /\ db w' = store_hset key (written_fields c m (parent_field config)) (db w)
    | Raise e, _ | Return _, Raise e =>
        r = Raise e /\ db w' = db w
        /\ exists closes, trace w' = trace w ++ closes
                          /\ Forall (fun ev => exists cl, ev = Closed cl) closes
    end
  else r = Raise (ValueError (invalid_message f)) /\ w' = w.
Proof.
  intros key w' r. subst w' r. rewrite put_method_with. unfold put_with, bind.
  destruct (provider_outcome f (connection_of f self) unit
              (fun conn => put_body conn config cp md) w)
    as (conn & w0 & (Hdb & Htr) & ->).
  destruct (accepted f _); [|split; reflexivity].
  rewrite put_body_run.
  destruct (dumps (PyCheckpoint cp)) as [c|e];
    [destruct (dumps (PyValue md)) as [m|e]|]; cbn [fst snd ret].
  - split; [reflexivity|].
    destruct conn; cbn [record with_db db]; rewrite Hdb; reflexivity.
  - split; [reflexivity|].
    destruct conn; cbn [record db trace]; (split; [exact Hdb|]); rewrite Htr.
    + exists []. split; [symmetry; apply app_nil_r|constructor].
    + eexists. split; [reflexivity|]. constructor; [eexists; reflexivity|constructor].
  - split; [reflexivity|].
    destruct conn; cbn [record db trace]; (split; [exact Hdb|]); rewrite Htr.
    + exists []. split; [symmetry; apply app_nil_r|constructor].
    + eexists. split; [reflexivity|]. constructor; [eexists; reflexivity|constructor].
Qed.

(** The keyspace after a [put] is the keyspace before, or the keyspace
    before with one [HSET] on the key of the checkpoint. *)
Lemma put_method_db (f : flavour) (self : RedisSaver) (config : RunnableConfig)
    (cp : Checkpoint V) (md : V) (w : world) :
  db (fst (put_method f self config cp md w)) = db w
  \/ exists c m,
       dumps (PyCheckpoint cp) = Return c /\ dumps (PyValue md) = Return m
       /\ db (fst (put_method f self config cp md w))
          = store_hset (make_key (thread_id config) (ts cp))
              (written_fields c m (parent_field config)) (db w).
Proof.
  pose proof (put_method_run f self config cp md w) as H. cbv zeta in H.
  destruct (accepted f _); [|left; destruct H as [_ ->]; reflexivity].
  destruct (dumps (PyCheckpoint cp)) as [c|e];
    [destruct (dumps (PyValue md)) as [m|e]|].
  - right. exists c, m. repeat split. apply H.
  - left. apply H.
  - left. apply H.
Qed.

End Writing.

(** X8. A [put] whose checkpoint or metadata the serializer refuses
    writes nothing: it raises the serializer's error, the keyspace is
    unchanged, and no command reaches the server (the trace grows by
    closes only). *)
Theorem put_that_cannot_serialize_writes_nothing :
  forall (V : Type) (serde : JsonPlusSerializer V) (f : flavour)
         (self : RedisSaver) (config : RunnableConfig)
         (cp : Checkpoint V) (md : V) (w : world),
    accepted f (connection_of f self) = true ->
    super_dumps (PyCheckpoint cp) = None \/ super_dumps (PyValue md) = None ->
    snd (put_method f self config cp md w) = Raise SerializerError
    /\ db (fst (put_method f self config cp md w)) = db w
    /\ exists closes,
         trace (fst (put_method f self config cp md w)) = trace w ++ closes
         /\ Forall (fun ev => exists cl, ev = Closed cl) closes.
Proof.
  intros V serde f self config cp md w A H.
  pose proof (put_method_run f self config cp md w) as R. cbv zeta in R.
  rewrite A in R. unfold dumps in R.
  destruct (super_dumps (PyCheckpoint cp)) as [c|];
    [destruct (super_dumps (PyValue md)) as [m|]|]; try exact R.
  destruct H; discriminate.
Qed.

(** X9. Write, then read at the identity [put] returned: for a checkpoint
    with a non-empty [ts], on any keyspace, [put] returns the identity of
    the thread at that [ts], and [get_tuple] of that identity returns the
    checkpoint and metadata just written, with the incoming version as
    parent when it was non-empty and no parent otherwise.  Both forms; the
    payloads serialize and the base serializer round-trips. *)
Theorem put_then_get_tuple_round_trip :
  forall (V : Type) (serde : JsonPlusSerializer V) (f : flavour)
         (self : RedisSaver) (config : RunnableConfig)
         (cp : Checkpoint V) (md : V) (c m : string) (w : world),
    round_trips serde ->
    accepted f (connection_of f self) = true ->
    ts cp <> "" ->
    dumps (PyCheckpoint cp) = Return c ->
    dumps (PyValue md) = Return m ->
    let written := {| thread_id := thread_id config; thread_ts := Some (ts cp) |} in
    snd (put_method f self config cp md w) = Return written
    /\ snd (get_tuple_method f self written (fst (put_method f self config cp md w)))
       = Return (Some {| config := written;
                         checkpoint := PyCheckpoint cp;
                         metadata := PyValue md;
                         parent_config :=
                           match thread_ts config with
                           | Some p =>
                               if Py.truthy p
                               then Some {| thread_id := thread_id config;
                                            thread_ts := Some p |}
                               else None
                           | None => None
                           end |}).
Proof.
  intros V serde f self config cp md c m w RT A N D E written.
  pose proof (put_method_run f self config cp md w) as R. cbv zeta in R.
  rewrite A, D, E in R. destruct R as [R Hdb]. split; [exact R|].
  rewrite get_tuple_outcome, A.
  rewrite (resolved_exact written (ts cp) _ eq_refl N). cbn [thread_id written].
  unfold hash_at. rewrite Hdb. unfold store_hset. rewrite lookup_upsert_same.
  pose proof (written_fields_stored c m (parent_field config)
                (match lookup (make_key (thread_id config) (ts cp)) (db w) with
                 | Some h => h | None => [] end))
    as (Fc & Fm & Fp & Fne). cbv zeta in Fc, Fm, Fp, Fne.
  unfold decode_reply, loads, dict_get.
  rewrite (reply_truthy _ Fne). cbn [negb].
  rewrite !reply_lookup_bytes, Fc, Fm, Fp.
  assert (Nc : forall b, PyCheckpoint cp <> PyBytes b) by discriminate.
  assert (Nm : forall b, @PyValue V md <> PyBytes b) by discriminate.
  rewrite (dumps_loads _ _ RT Nc D), (dumps_loads _ _ RT Nm E).
  unfold parent_field. cbn [thread_id].
  destruct (thread_ts config) as [p|]; [|reflexivity].
  destruct (Py.truthy p) eqn:T; [rewrite T|]; reflexivity.
Qed.

Lemma upsert_idem (A : Type) (k : string) (g : option A -> A)
    (l : list (string * A)) :
  g (Some (g (lookup k l))) = g (lookup k l) ->
  upsert k g (upsert k g l) = upsert k g l.
Proof.
  induction l as [|[k' v] l IH]; cbn [upsert lookup].
  - intros H. rewrite String.eqb_refl, H. reflexivity.
  - destruct (String.eqb k' k) eqn:E; cbn [upsert]; rewrite E; intros H.
    + rewrite H. reflexivity.
    + rewrite (IH H). reflexivity.
Qed.

Lemma upsert_same_value (k v : string) (h : hash) :
  lookup k h = Some v -> upsert k (fun _ => v) h = h.
Proof.
  induction h as [|[k' v'] h IH]; cbn [upsert lookup]; [discriminate|].
  destruct (String.eqb k' k); intros H.
  - injection H as ->. reflexivity.
  - rewrite (IH H). reflexivity.
Qed.

(** Sending the same field group twice is sending it once. *)
Lemma store_hset_idem (key c m p : string) (d : store) :
  store_hset key (written_fields c m p) (store_hset key (written_fields c m p) d)
  = store_hset key (written_fields c m p) d.
Proof.
  unfold store_hset. apply upsert_idem.
  pose proof (written_fields_stored c m p
                (match lookup key d with Some h => h | None => [] end))
    as (Fc & Fm & Fp & _). cbv zeta in Fc, Fm, Fp.
  set (h' := fold_left hash_set (written_fields c m p) _) in *.
  cbn [written_fields fold_left]. unfold hash_set. cbn [fst snd].
  rewrite (upsert_same_value _ _ _ Fc), (upsert_same_value _ _ _ Fm).
  apply upsert_same_value. exact Fp.
Qed.

(** X10. [put] is idempotent: the same call made a second time has the
    same outcome as the first and leaves the keyspace as the first left
    it, on every connection and whatever the first call did. *)
Theorem put_twice_is_put_once :
  forall (V : Type) (serde : JsonPlusSerializer V) (f : flavour)
         (self : RedisSaver) (config : RunnableConfig)
         (cp : Checkpoint V) (md : V) (w : world),
    let w1 := fst (put_method f self config cp md w) in
    snd (put_method f self config cp md w1) = snd (put_method f self config cp md w)
    /\ db (fst (put_method f self config cp md w1)) = db w1.
Proof.
  intros V serde f self config cp md w w1.
  pose proof (put_method_run f self config cp md w) as R1.
  pose proof (put_method_run f self config cp md w1) as R2.
  cbv zeta in R1, R2. fold w1 in R1.
  destruct (accepted f _).
  - destruct (dumps (PyCheckpoint cp)) as [c|e];
      [destruct (dumps (PyValue md)) as [m|e]|].
    + destruct R1 as [-> D1], R2 as [-> D2]. split; [reflexivity|].
      rewrite D2, D1. apply store_hset_idem.
    + destruct R1 as (-> & _), R2 as (-> & D2 & _). split; [reflexivity|exact D2].
    + destruct R1 as (-> & _), R2 as (-> & D2 & _). split; [reflexivity|exact D2].
  - destruct R1 as [-> _], R2 as [-> ->]. split; reflexivity.
Qed.

(** X11. A [put] does not disturb reads at other keys: [get_tuple] at an
    explicit version whose key differs from the key just written has the
    outcome it had before the [put], whatever the two connections and
    forms. *)
Theorem put_keeps_reads_at_other_keys :
  forall (V : Type) (serde : JsonPlusSerializer V) (f f' : flavour)
         (self self' : RedisSaver) (config other : RunnableConfig) (t : string)
         (cp : Checkpoint V) (md : V) (w : world),
    thread_ts other = Some t -> t <> "" ->
    make_key (thread_id other) t <> make_key (thread_id config) (ts cp) ->
    snd (get_tuple_method f' self' other (fst (put_method f self config cp md w)))
    = snd (get_tuple_method f' self' other w).
Proof.
  intros V serde f f' self self' config other t cp md w E N K.
  rewrite !get_tuple_outcome, !(resolved_exact other t _ E N).
  destruct (accepted f' _); [|reflexivity].
  destruct (put_method_db f self config cp md w) as [->|(c & m & _ & _ & ->)];
    [reflexivity|].
  unfold hash_at, store_hset. rewrite (lookup_upsert_other _ _ _ _ _ K).
  reflexivity.
Qed.

(** ** Keys *)

Lemma colon_split_unique (a a' v v' : string) :
  colon_free a = true -> colon_free a' = true ->
  (a ++ String ":" v)%string = (a' ++ String ":" v')%string ->
  a = a' /\ v = v'.
Proof.
  revert a'. induction a as [|x a IH]; intros [|x' a'] Ha Ha' E;
    cbn [String.append colon_free] in *.
  - injection E as ->. split; reflexivity.
  - injection E as <- _. discriminate Ha'.
  - injection E as -> _. discriminate Ha.
  - injection E as -> E.
    apply andb_prop in Ha as [_ Ha]. apply andb_prop in Ha' as [_ Ha'].
    destruct (IH a' Ha Ha' E) as [-> ->]. split; reflexivity.
Qed.


(** X12. Keys of threads whose ids hold no colon never collide: two
    identities with colon-free thread ids that get the same key have the
    same thread id and the same version (the version may hold colons). *)
Theorem make_key_injective_on_colon_free_threads :
  forall (th th' v v' : string),
    colon_free th = true -> colon_free th' = true ->
    make_key th v = make_key th' v' ->
    th = th' /\ v = v'.
Proof.
  intros th th' v v' H H' E. unfold make_key in E. cbn [String.append] in E.
  injection E as E. apply (colon_split_unique th th' v v' H H' E).
Qed.

(** ** The latest read *)

Lemma ltb_lt (a b : string) :
  String.ltb a b = true <-> OrderedTypeEx.String_as_OT.lt a b.
Proof.
  rewrite <- OrderedTypeEx.String_as_OT.cmp_lt.
  unfold String.ltb, OrderedTypeEx.String_as_OT.cmp.
  destruct (String.compare a b); split; (reflexivity || discriminate).
Qed.

Lemma ltb_trans (a b c : string) :
  String.ltb a b = true -> String.ltb b c = true -> String.ltb a c = true.
Proof.
  rewrite !ltb_lt. apply OrderedTypeEx.String_as_OT.lt_trans.
Qed.

Lemma ltb_cases (a b : string) :
  String.ltb a b = false -> a = b \/ String.ltb b a = true.
Proof.
  unfold String.ltb. rewrite (String.compare_antisym b a).
  destruct (String.compare a b) eqn:E; cbn; intros H.
  - left. apply String.compare_eq_iff. exact E.
  - discriminate H.
  - right. reflexivity.
Qed.

Lemma ltb_irrefl (a : string) : String.ltb a a = false.
Proof.
  unfold String.ltb. pose proof (String.compare_antisym a a) as H.
  destruct (String.compare a a); (reflexivity || discriminate H).
Qed.

(** [a < b <= c] gives [a < c], and [a <= b < c] gives [a < c]. *)
Lemma ltb_lt_le (a b c : string) :
  String.ltb a b = true -> String.ltb c b = false -> String.ltb a c = true.
Proof.
  intros H1 H2. destruct (ltb_cases c b H2) as [->|H]; [exact H1|].
  apply (ltb_trans a b c H1 H).
Qed.

Lemma ltb_le_lt (a b c : string) :
  String.ltb b a = false -> String.ltb b c = true -> String.ltb a c = true.
Proof.
  intros H1 H2. destruct (ltb_cases b a H1) as [->|H]; [exact H2|].
  apply (ltb_trans a b c H H2).
Qed.

(** [max] returns an element of the list whose key no element exceeds. *)
Lemma max_from_greatest (A : Type) (f : A -> string) (l : list A) (cur : A) :
  In (Py.max_from f cur l) (cur :: l)
  /\ forall y, In y (cur :: l) -> String.ltb (f (Py.max_from f cur l)) (f y) = false.
Proof.
  revert cur. induction l as [|x l IH]; intros cur; cbn [Py.max_from].
  - split; [left; reflexivity|]. intros y [<-|[]]. apply ltb_irrefl.
  - destruct (String.ltb (f cur) (f x)) eqn:E.
    + destruct (IH x) as [I G]. split; [right; exact I|].
      intros y [<-|Hy]; [|apply G; exact Hy].
      destruct (String.ltb (f (Py.max_from f x l)) (f cur)) eqn:C; [|reflexivity].
      rewrite <- (G x (or_introl eq_refl)). symmetry.
      apply (ltb_trans _ _ _ C E).
    + destruct (IH cur) as [I G]. split.
      * destruct I as [<-|I]; [left; reflexivity|right; right; exact I].
      * intros y [<-|[<-|Hy]].
        -- apply G. left. reflexivity.
        -- destruct (String.ltb (f (Py.max_from f cur l)) (f x)) eqn:C; [|reflexivity].
           rewrite <- (G cur (or_introl eq_refl)). symmetry.
           apply (ltb_lt_le _ _ _ C E).
        -- apply G. right. exact Hy.
Qed.

Lemma max_by_greatest (A : Type) (f : A -> string) (l : list A) (x : A) :
  Py.max_by f l = Some x ->
  In x l /\ forall y, In y l -> String.ltb (f x) (f y) = false.
Proof.
  destruct l as [|a l]; cbn [Py.max_by]; [discriminate|].
  intros H. injection H as <-. apply max_from_greatest.
Qed.

Lemma split_not_nil (sep : ascii) (s : string) : Py.split sep s <> [].
Proof.
  destruct s as [|c s]; cbn [Py.split]; [discriminate|].
  destruct (Ascii.eqb c sep); [discriminate|].
  destruct (Py.split sep s); discriminate.
Qed.

Lemma split_at_colon (a v : string) :
  Py.split ":" (a ++ String ":" v) = Py.split ":" a ++ Py.split ":" v.
Proof.
  induction a as [|c a IH]; cbn [String.append Py.split app].
  - reflexivity.
  - destruct (Ascii.eqb c ":").
    + rewrite IH. reflexivity.
    + rewrite IH. pose proof (split_not_nil ":" a) as N.
      destruct (Py.split ":" a); [congruence|reflexivity].
Qed.

Lemma split_colon_free (v : string) :
  colon_free v = true -> Py.split ":" v = [v].
Proof.
  induction v as [|c v IH]; cbn [colon_free Py.split]; [reflexivity|].
  intros H. apply andb_prop in H as [H1 H2]. apply negb_true_iff in H1.
  rewrite H1, (IH H2). reflexivity.
Qed.

(** What follows the last colon of a key is its version, when the version
    holds no colon. *)
Lemma last_segment_make_key (th v : string) :
  colon_free v = true -> Py.last_segment (make_key th v) = v.
Proof.
  intros H. unfold Py.last_segment.
  assert (E : make_key th v = (("checkpoint:" ++ th) ++ String ":" v)%string).
  { unfold make_key. rewrite append_assoc. reflexivity. }
  rewrite E, split_at_colon, (split_colon_free v H).
  rewrite last_last. reflexivity.
Qed.

Lemma lookup_names (A : Type) (k : string) (l : list (string * A)) :
  lookup k l <> None -> In k (map fst l).
Proof.
  induction l as [|[k' v] l IH]; cbn [lookup map fst In]; [congruence|].
  destruct (String.eqb_spec k' k); [left; assumption|right; apply IH; assumption].
Qed.

Lemma thread_keys_spec (th k : string) (d : store) :
  glob_literal th = true ->
  In k (thread_keys th d) <-> exists v, k = make_key th v /\ lookup k d <> None.
Proof.
  intros L. unfold thread_keys. rewrite filter_In, (thread_pattern_matches th k L).
  split.
  - intros [I [v E]]. exists v. split; [exact E|apply lookup_in_names; exact I].
  - intros [v [E N]]. split; [apply lookup_names; exact N|exists v; exact E].
Qed.

Section Latest.

Context {V : Type} {serde : JsonPlusSerializer V}.

Lemma decode_reply_payload (c1 c2 : RunnableConfig) (d : pydict) :
  thread_id c1 = thread_id c2 ->
  read_payload (decode_reply c1 d) = read_payload (decode_reply c2 d).
Proof.
  intros E. unfold decode_reply. rewrite E.
  destruct (negb (dict_truthy d)); [reflexivity|].
  destruct (dict_lookup (KBytes "checkpoint") d); [|reflexivity].
  destruct (loads _ false); [|reflexivity].
  destruct (dict_lookup (KBytes "metadata") d); [|reflexivity].
  destruct (loads _ false); reflexivity.
Qed.

End Latest.

(** X13. When the version markers stored for a thread hold no colon (and
    the thread id no pattern character), the latest read is the read of
    the greatest version: for a thread with at least one record there is a
    stored version [v] that no stored version of the thread exceeds, and
    [get_tuple] without version returns the checkpoint, metadata and
    parent that [get_tuple] at [v] returns. *)
Theorem latest_read_is_greatest_colon_free_version :
  forall (V : Type) (serde : JsonPlusSerializer V) (f : flavour)
         (self : RedisSaver) (th v0 : string) (w : world),
    glob_literal th = true ->
    (forall v, lookup (make_key th v) (db w) <> None -> colon_free v = true) ->
    lookup (make_key th v0) (db w) <> None ->
    exists v : string,
      lookup (make_key th v) (db w) <> None
      /\ (forall v', lookup (make_key th v') (db w) <> None -> String.ltb v v' = false)
      /\ read_payload
           (snd (get_tuple_method f self {| thread_id := th; thread_ts := None |} w))
         = read_payload
             (snd (get_tuple_method f self {| thread_id := th; thread_ts := Some v |} w)).
Proof.
  intros V serde f self th v0 w L CF S0.
  destruct (Py.max_by Py.last_segment (thread_keys th (db w))) as [k|] eqn:M.
  2:{ assert (I : In (make_key th v0) (thread_keys th (db w))).
      { apply (thread_keys_spec th _ _ L). exists v0. split; [reflexivity|exact S0]. }
      destruct (thread_keys th (db w)); [destruct I|discriminate M]. }
  destruct (max_by_greatest _ _ _ _ M) as [I G].
  apply (thread_keys_spec th k _ L) in I as (v & -> & Sv).
  exists v. split; [exact Sv|]. split.
  - intros v' Sv'.
    rewrite <- (last_segment_make_key th v (CF v Sv)).
    rewrite <- (last_segment_make_key th v' (CF v' Sv')).
    apply G. apply (thread_keys_spec th _ _ L). exists v'. split; [reflexivity|exact Sv'].
  - rewrite !get_tuple_outcome. destruct (accepted f _); [|reflexivity].
    rewrite (resolved_latest {| thread_id := th; thread_ts := None |} _ eq_refl).
    cbn [thread_id]. rewrite M.
    destruct v as [|a v].
    + rewrite (resolved_latest {| thread_id := th; thread_ts := Some "" |} _ eq_refl).
      cbn [thread_id]. rewrite M. apply decode_reply_payload. reflexivity.
    + rewrite (resolved_exact {| thread_id := th; thread_ts := Some (String a v) |}
                 (String a v) _ eq_refl) by discriminate.
      apply decode_reply_payload. reflexivity.
Qed.

(** ** Savers built with one connection *)

(** X14. A saver built with an async connection only has [None] as its
    sync connection, so its blocking methods raise the provider's
    [ValueError] and leave the world untouched; likewise the coroutine
    methods of a saver built with a sync connection only. *)
Theorem one_sided_saver_refuses_the_other_form :
  forall (V : Type) (serde : JsonPlusSerializer V) (c : connection_obj)
         (config : RunnableConfig) (cp : Checkpoint V) (md : V)
         (among : option RunnableConfig) (flt : option (list (string * pyobj V)))
         (before : option RunnableConfig) (limit : option Z) (w : world),
    (put (__init__ None (Some c)) config cp md w
       = (w, Raise (ValueError "Invalid sync connection object."))
     /\ get_tuple (__init__ None (Some c)) config w
        = (w, Raise (ValueError "Invalid sync connection object."))
     /\ list_ (__init__ None (Some c)) among flt before limit w
        = (w, Raise (ValueError "Invalid sync connection object.")))
    /\ (aput (__init__ (Some c) None) config cp md w
          = (w, Raise (ValueError "Invalid async connection object."))
        /\ aget_tuple (__init__ (Some c) None) config w
           = (w, Raise (ValueError "Invalid async connection object."))
        /\ alist (__init__ (Some c) None) among flt before limit w
           = (w, Raise (ValueError "Invalid async connection object."))).
Proof. intros. repeat split; reflexivity. Qed.

(** ** Listing *)

Lemma method_scoped (f : flavour) (c : connection_obj) :
  accepted f c = true -> scoped (provider_of f) c.
Proof. destruct f; [apply sync_scoped|apply async_scoped]. Qed.

(** X15. [list] and [alist] yield nothing, whatever the keyspace holds:
    on an accepted connection, for every thread (or none), filter, limit
    and bound carrying a version, the generator ends without a tuple and
    without an error. *)
Theorem list_never_yields :
  forall (V : Type) (serde : JsonPlusSerializer V) (f : flavour)
         (self : RedisSaver) (among : option RunnableConfig)
         (flt : option (list (string * pyobj V)))
         (before : option RunnableConfig) (limit : option Z) (w : world),
    accepted f (connection_of f self) = true ->
    (forall b, before = Some b -> thread_ts b <> None) ->
    snd (list_method f self among flt before limit w) = Return [].
Proof.
  intros V serde f self among flt before limit w A B.
  rewrite list_method_with.
  apply list_with_yields_nothing; [apply method_scoped; exact A|exact B].
Qed.

(** ** Threads do not see each other's writes *)




(** ** The hexadecimal encoding *)

(** X17. [dumps] is injective on byte sequences: two byte sequences with
    the same encoding are equal. *)
Theorem dumps_bytes_injective :
  forall (V : Type) (serde : JsonPlusSerializer V) (b1 b2 : list byte),
    @dumps V serde (PyBytes b1) = @dumps V serde (PyBytes b2) -> b1 = b2.
Proof.
  intros V serde b1 b2 H. cbn [dumps] in H. injection H as H.
  pose proof (fromhex_hex b1) as H1. rewrite H, fromhex_hex in H1.
  injection H1 as ->. reflexivity.
Qed.

(** ** What a listing sends to the server *)

Lemma ltb_asym (a b : string) : String.ltb a b = true -> String.ltb b a = false.
Proof.
  unfold String.ltb. rewrite (String.compare_antisym a b).
  destruct (String.compare b a); cbn; intros H; (reflexivity || discriminate H).
Qed.

Lemma insert_desc_in (x y : string) (l : list string) :
  In y (Py.insert_desc Py.last_segment x l) <-> y = x \/ In y l.
Proof.
  induction l as [|z l IH]; cbn [Py.insert_desc In].
  - intuition.
  - destruct (String.ltb _ _); cbn [In]; [rewrite IH|]; intuition.
Qed.

Lemma sorted_desc_in (y : string) (l : list string) :
  In y (Py.sorted_desc Py.last_segment l) <-> In y l.
Proof.
  induction l as [|x l IH]; cbn [Py.sorted_desc In]; [reflexivity|].
  rewrite insert_desc_in, IH. intuition.
Qed.

Lemma insert_desc_descending (x : string) (l : list string) :
  descending l -> descending (Py.insert_desc Py.last_segment x l).
Proof.
  induction l as [|y l IH]; cbn [Py.insert_desc]; [cbn; auto|].
  intros D. destruct (String.ltb (Py.last_segment x) (Py.last_segment y)) eqn:E.
  - destruct D as [H D]. specialize (IH D).
    destruct l as [|z l]; cbn [Py.insert_desc] in *.
    + cbn. split; [apply ltb_asym; exact E|auto].
    + destruct (String.ltb (Py.last_segment x) (Py.last_segment z)).
      * split; [exact H|exact IH].
      * split; [apply ltb_asym; exact E|exact IH].
  - split; [exact E|exact D].
Qed.

Lemma sorted_desc_descending (l : list string) :
  descending (Py.sorted_desc Py.last_segment l).
Proof.
  induction l as [|x l IH]; cbn [Py.sorted_desc]; [exact I|].
  apply insert_desc_descending. exact IH.
Qed.

Lemma firstn_descending (n : nat) (l : list string) :
  descending l -> descending (firstn n l).
Proof.
  revert l. induction n as [|n IH]; intros [|k l] D; cbn [firstn]; try exact I.
  destruct D as [H D]. specialize (IH l D).
  destruct n as [|n]; [cbn; auto|].
  destruct l as [|k' l]; [cbn; auto|].
  cbn [firstn] in *. split; [exact H|exact IH].
Qed.

Lemma firstn_in (A : Type) (n : nat) (l : list A) (x : A) :
  In x (firstn n l) -> In x l.
Proof.
  revert l. induction n as [|n IH]; intros [|y l]; cbn [firstn In]; try tauto.
  intros [H|H]; [left; exact H|right; apply IH; exact H].
Qed.

Section Wire.

Context {V : Type} {serde : JsonPlusSerializer V}.

Lemma yield_tuples_step (conn : client) (th k : string) (ks : list string)
    (w : world) :
  @yield_tuples V serde conn th (k :: ks) w
  = yield_tuples conn th ks (record (Issued conn (HGETALL k)) w).
Proof.
  cbn [yield_tuples]. unfold bind at 1, hgetall.
  unfold dict_contains. rewrite reply_lookup_str, andb_false_r. reflexivity.
Qed.

Lemma yield_tuples_trace (conn : client) (th : string) (ks : list string)
    (w : world) :
  trace (fst (@yield_tuples V serde conn th ks w))
  = trace w ++ map (Issued conn) (map HGETALL ks).
Proof.
  revert w. induction ks as [|k ks IH]; intros w.
  - cbn. symmetry. apply app_nil_r.
  - rewrite yield_tuples_step, IH. cbn [record trace map].
    rewrite <- app_assoc. reflexivity.
Qed.

End Wire.

(** X18. What a listing does on the wire, on a client supplied by the
    caller: one [KEYS] on the thread's pattern, then one [HGETALL] per
    selected key and nothing else.  The selected keys are among those the
    pattern matched, come in non-increasing order of what follows their
    last colon, all lie strictly below the bound's version in that order
    when a bound is given, and are at most [limit] when a positive limit
    is given; without limit (or with limit 0) every matched key that
    passes the bound is selected. *)
Theorem list_reads_selected_keys_in_descending_order :
  forall (V : Type) (serde : JsonPlusSerializer V) (f : flavour)
         (self : RedisSaver) (c : nat) (among : option RunnableConfig)
         (flt : option (list (string * pyobj V)))
         (before : option RunnableConfig) (limit : option Z) (w : world),
    connection_of f self = direct_of f c ->
    (forall b, before = Some b -> thread_ts b <> None) ->
    let th := match among with Some cfg => thread_id cfg | None => "*" end in
    let below (k : string) :=
      match before with
      | Some b => match thread_ts b with
                  | Some v => String.ltb (Py.last_segment k) v
                  | None => true
                  end
      | None => true
      end in
    exists selected : list string,
      trace (fst (list_method f self among flt before limit w))
      = trace w ++ map (Issued (Borrowed c))
                     (KEYS ("checkpoint:" ++ th ++ ":*") :: map HGETALL selected)
      /\ (forall k, In k selected -> In k (thread_keys th (db w)) /\ below k = true)
      /\ descending selected
      /\ (forall n, limit = Some n -> (0 < n)%Z ->
            (List.length selected <= Z.to_nat n)%nat)
      /\ (limit = None \/ limit = Some 0%Z ->
          forall k, In k (thread_keys th (db w)) -> below k = true -> In k selected).
Proof.
  intros V serde f self c among flt before limit w E B th below.
  rewrite list_method_with, E. unfold list_with. fold th. rewrite direct_run.
  unfold bind at 1, keys. fold (thread_keys th (db w)).
  set (w1 := record _ w).
  assert (K : exists keys1,
             (match before with
              | Some b => keys_before b (thread_keys th (db w))
              | None => ret (thread_keys th (db w))
              end) w1 = (w1, Return keys1)
             /\ forall k, In k keys1 <-> In k (thread_keys th (db w)) /\ below k = true).
  { subst below. destruct before as [b|].
    - destruct (thread_ts b) as [v|] eqn:Tb; [|destruct (B b eq_refl Tb)].
      eexists. split; [apply keys_before_run; exact Tb|].
      intros k. rewrite filter_In. reflexivity.
    - eexists. split; [reflexivity|]. intros k. tauto. }
  destruct K as (keys1 & Hk & Hin). unfold bind at 1. rewrite Hk.
  set (keys2 := Py.sorted_desc Py.last_segment keys1).
  assert (H2 : forall k, In k keys2 <-> In k (thread_keys th (db w)) /\ below k = true).
  { intros k. unfold keys2. rewrite sorted_desc_in. apply Hin. }
  assert (D2 : descending keys2) by apply sorted_desc_descending.
  match goal with
  | |- context [yield_tuples _ th ?ks w1] => exists ks
  end.
  rewrite yield_tuples_trace. split.
  { subst w1. cbn [record trace map]. rewrite <- app_assoc. reflexivity. }
  destruct limit as [n|].
  - destruct (Z.eqb_spec n 0) as [->|Nz].
    + split; [intros k; apply H2|]. split; [exact D2|].
      split; [intros n H; injection H as <-; lia|].
      intros _ k Hk1 Hk2. apply H2. split; assumption.
    + split.
      { intros k Hk1. apply H2. unfold Py.slice_to in Hk1.
        destruct (0 <=? n)%Z; apply firstn_in in Hk1; exact Hk1. }
      split.
      { unfold Py.slice_to. destruct (0 <=? n)%Z; apply firstn_descending; exact D2. }
      split.
      { intros n' H Pn. injection H as <-. unfold Py.slice_to.
        destruct (Z.leb_spec 0 n); [|lia]. apply firstn_le_length. }
      intros [H|H]; [discriminate H|]. injection H as ->. congruence.
  - split; [intros k; apply H2|]. split; [exact D2|].
    split; [intros n H; discriminate H|].
    intros _ k Hk1 Hk2. apply H2. split; assumption.
Qed.

(** * Instances of the further conditional statements *)

Lemma get_tuple_of_missing_record_is_none_witness :
  snd (get_tuple Demo.direct_saver (Demo.at_version "t" "v9") Demo.five_puts)
    = Return None
  /\ snd (aget_tuple Demo.pooled_saver (Demo.thread "u") Demo.five_puts)
     = Return None.
Proof.
  split.
  - apply (proj1 (get_tuple_of_missing_record_is_none string Demo.demo_serde Blocking
                    Demo.direct_saver (Demo.at_version "t" "v9") Demo.five_puts
                    eq_refl) "v9"); [reflexivity|discriminate|reflexivity].
  - apply (proj2 (get_tuple_of_missing_record_is_none string Demo.demo_serde Coroutine
                    Demo.pooled_saver (Demo.thread "u") Demo.five_puts eq_refl));
      reflexivity.
Defined.

Lemma get_tuple_of_partial_record_raises_witness :
  snd (get_tuple Demo.direct_saver (Demo.at_version "t" "v1") Cases.without_checkpoint)
    = Raise (KeyError (KBytes "checkpoint"))
  /\ snd (get_tuple Demo.direct_saver (Demo.at_version "t" "v1") Cases.without_metadata)
     = Raise (KeyError (KBytes "metadata")).
Proof.
  split.
  - apply (proj1 (get_tuple_of_partial_record_raises string Demo.demo_serde Blocking
                    Demo.direct_saver (Demo.at_version "t" "v1") "v1"
                    [("metadata", "Vm"); ("parent_ts", "")] Cases.without_checkpoint
                    eq_refl eq_refl ltac:(discriminate) eq_refl ltac:(discriminate))).
    reflexivity.
  - apply (proj2 (proj2 (get_tuple_of_partial_record_raises string Demo.demo_serde
                    Blocking Demo.direct_saver (Demo.at_version "t" "v1") "v1"
                    [("checkpoint", "C11|v1a"); ("parent_ts", "")] Cases.without_metadata
                    eq_refl eq_refl ltac:(discriminate) eq_refl ltac:(discriminate)))
             "C11|v1a" (PyCheckpoint (Demo.cp "v1" "a"))); reflexivity.
Defined.

Lemma get_tuple_without_parent_field_witness :
  snd (get_tuple Demo.direct_saver (Demo.at_version "t" "v1") Cases.without_parent)
  = Return (Some {| config := Demo.at_version "t" "v1";
                    checkpoint := PyCheckpoint (Demo.cp "v1" "a");
                    metadata := PyValue "m";
                    parent_config := None |}).
Proof.
  apply (get_tuple_without_parent_field string Demo.demo_serde Blocking
           Demo.direct_saver (Demo.at_version "t" "v1") "v1"
           [("checkpoint", "C11|v1a"); ("metadata", "Vm")] "C11|v1a" "Vm"
           (PyCheckpoint (Demo.cp "v1" "a")) (PyValue "m") Cases.without_parent);
    try reflexivity.
  - discriminate.
  - left. reflexivity.
Defined.

Lemma get_tuple_returns_what_is_stored_witness :
  exists (key : string) (h : hash) (c m : string),
    lookup key (db Demo.five_puts) = Some h
    /\ lookup "checkpoint" h = Some c
    /\ super_loads c = Some (PyCheckpoint (Demo.cp "v5" "e"))
    /\ lookup "metadata" h = Some m
    /\ super_loads m = Some (@PyValue string "m5")
    /\ (Some (Demo.at_version "t" "v4") = None
        \/ exists p, p <> "" /\ lookup "parent_ts" h = Some p
             /\ Some (Demo.at_version "t" "v4")
                = Some {| thread_id := "t"; thread_ts := Some p |}).
Proof.
  apply (get_tuple_returns_what_is_stored string Demo.demo_serde Blocking
           Demo.pooled_saver (Demo.thread "t") Demo.five_puts
           {| config := Demo.thread "t";
              checkpoint := PyCheckpoint (Demo.cp "v5" "e");
              metadata := PyValue "m5";
              parent_config := Some (Demo.at_version "t" "v4") |}).
  vm_compute. reflexivity.
Defined.

Lemma methods_on_a_pool_close_their_client_witness :
  leased_run 0 Demo.five_puts
    (fst (put Demo.pooled_saver (Demo.thread "t") (Demo.cp "v6" "f") "m6" Demo.five_puts))
  /\ leased_run 0 Demo.five_puts
       (fst (get_tuple Demo.pooled_saver (Demo.thread "t") Demo.five_puts))
  /\ leased_run 0 Demo.five_puts
       (fst (list_ Demo.pooled_saver (Some (Demo.thread "t")) None None (Some 3%Z)
               Demo.five_puts)).
Proof.
  apply (methods_on_a_pool_close_their_client string Demo.demo_serde Blocking
           Demo.pooled_saver 0 (Demo.thread "t") (Demo.cp "v6" "f") "m6"
           (Some (Demo.thread "t")) None None (Some 3%Z) Demo.five_puts).
  reflexivity.
Defined.

Lemma methods_on_a_direct_client_never_close_witness :
  issued_by (Borrowed 1) Demo.five_puts
    (fst (aput Demo.direct_saver (Demo.thread "t") (Demo.cp "v6" "f") "m6" Demo.five_puts))
  /\ issued_by (Borrowed 1) Demo.five_puts
       (fst (aget_tuple Demo.direct_saver (Demo.thread "t") Demo.five_puts))
  /\ issued_by (Borrowed 1) Demo.five_puts
       (fst (alist Demo.direct_saver (Some (Demo.thread "t")) None None None
               Demo.five_puts)).
Proof.
  apply (methods_on_a_direct_client_never_close string Demo.demo_serde Coroutine
           Demo.direct_saver 1 (Demo.thread "t") (Demo.cp "v6" "f") "m6"
           (Some (Demo.thread "t")) None None None Demo.five_puts).
  reflexivity.
Defined.

Lemma put_that_cannot_serialize_writes_nothing_witness :
  snd (@put string Cases.refusing_serde Demo.pooled_saver (Demo.thread "t")
         (Demo.cp "v6" "f") "m6" Demo.five_puts)
    = Raise SerializerError
  /\ db (fst (@put string Cases.refusing_serde Demo.pooled_saver (Demo.thread "t")
                (Demo.cp "v6" "f") "m6" Demo.five_puts))
     = db Demo.five_puts
  /\ exists closes,
       trace (fst (@put string Cases.refusing_serde Demo.pooled_saver (Demo.thread "t")
                     (Demo.cp "v6" "f") "m6" Demo.five_puts))
       = trace Demo.five_puts ++ closes
       /\ Forall (fun ev => exists cl, ev = Closed cl) closes.
Proof.
  apply (put_that_cannot_serialize_writes_nothing string Cases.refusing_serde Blocking
           Demo.pooled_saver (Demo.thread "t") (Demo.cp "v6" "f") "m6" Demo.five_puts).
  - reflexivity.
  - left. reflexivity.
Defined.

Lemma put_then_get_tuple_round_trip_witness :
  snd (aput Demo.pooled_saver (Demo.at_version "t" "v5") (Demo.cp "v6" "f") "m6"
         Demo.five_puts)
    = Return (Demo.at_version "t" "v6")
  /\ snd (aget_tuple Demo.pooled_saver (Demo.at_version "t" "v6")
            (fst (aput Demo.pooled_saver (Demo.at_version "t" "v5") (Demo.cp "v6" "f")
                    "m6" Demo.five_puts)))
     = Return (Some {| config := Demo.at_version "t" "v6";
                       checkpoint := PyCheckpoint (Demo.cp "v6" "f");
                       metadata := PyValue "m6";
                       parent_config := Some (Demo.at_version "t" "v5") |}).
Proof.
  apply (put_then_get_tuple_round_trip string Demo.demo_serde Coroutine
           Demo.pooled_saver (Demo.at_version "t" "v5") (Demo.cp "v6" "f") "m6"
           "C11|v6f" "Vm6" Demo.five_puts demo_round_trips).
  - reflexivity.
  - discriminate.
  - reflexivity.
  - reflexivity.
Defined.

Lemma put_keeps_reads_at_other_keys_witness :
  snd (get_tuple Demo.direct_saver (Demo.at_version "t" "v1")
         (fst (put Demo.pooled_saver (Demo.at_version "t" "v5") (Demo.cp "v6" "f") "m6"
                 Demo.five_puts)))
  = snd (get_tuple Demo.direct_saver (Demo.at_version "t" "v1") Demo.five_puts).
Proof.
  apply (put_keeps_reads_at_other_keys string Demo.demo_serde Blocking Blocking
           Demo.pooled_saver Demo.direct_saver (Demo.at_version "t" "v5")
           (Demo.at_version "t" "v1") "v1" (Demo.cp "v6" "f") "m6" Demo.five_puts).
  - reflexivity.
  - discriminate.
  - intros H. vm_compute in H. discriminate H.
Defined.

Lemma make_key_injective_on_colon_free_threads_witness :
  colon_free "thread-1" = true
  /\ make_key "thread-1" "2024-05-01T10:00:59" = make_key "thread-1" "2024-05-01T10:00:59"
  /\ "thread-1" = "thread-1" /\ "2024-05-01T10:00:59" = "2024-05-01T10:00:59".
Proof.
  split; [reflexivity|]. split; [reflexivity|].
  apply (make_key_injective_on_colon_free_threads "thread-1" "thread-1"
           "2024-05-01T10:00:59" "2024-05-01T10:00:59"); reflexivity.
Defined.

Lemma latest_read_is_greatest_colon_free_version_witness :
  exists v : string,
    lookup (make_key "t" v) (db Demo.five_puts) <> None
    /\ (forall v', lookup (make_key "t" v') (db Demo.five_puts) <> None ->
          String.ltb v v' = false)
    /\ read_payload (snd (get_tuple Demo.pooled_saver (Demo.thread "t") Demo.five_puts))
       = read_payload
           (snd (get_tuple Demo.pooled_saver
                   {| thread_id := "t"; thread_ts := Some v |} Demo.five_puts)).
Proof.
  apply (latest_read_is_greatest_colon_free_version string Demo.demo_serde Blocking
           Demo.pooled_saver "t" "v1" Demo.five_puts).
  - reflexivity.
  - intros v H. apply lookup_names in H. vm_compute in H.
    repeat (destruct H as [H|H]; [injection H as <-; reflexivity|]).
    destruct H.
  - vm_compute. discriminate.
Defined.

Lemma list_never_yields_witness :
  snd (list_ Demo.direct_saver None None (Some (Demo.at_version "t" "v4")) (Some (-1)%Z)
         Demo.five_puts)
  = Return [].
Proof.
  apply (list_never_yields string Demo.demo_serde Blocking Demo.direct_saver None None
           (Some (Demo.at_version "t" "v4")) (Some (-1)%Z) Demo.five_puts).
  - reflexivity.
  - intros b H. injection H as <-. discriminate.
Defined.


Lemma dumps_bytes_injective_witness :
  @dumps string Demo.demo_serde (PyBytes [x00; xff; x1a])
    = @dumps string Demo.demo_serde (PyBytes [x00; xff; x1a])
  /\ [x00; xff; x1a] = [x00; xff; x1a].
Proof.
  split; [reflexivity|].
  apply (dumps_bytes_injective string Demo.demo_serde [x00; xff; x1a] [x00; xff; x1a]).
  reflexivity.
Defined.

Lemma list_reads_selected_keys_in_descending_order_witness :
  exists selected : list string,
    trace (fst (list_ Demo.direct_saver (Some (Demo.thread "t")) None
                  (Some (Demo.at_version "t" "v5")) (Some 3%Z) Demo.five_puts))
    = trace Demo.five_puts
      ++ map (Issued (Borrowed 0)) (KEYS "checkpoint:t:*" :: map HGETALL selected)
    /\ (forall k, In k selected ->
          In k (thread_keys "t" (db Demo.five_puts))
          /\ String.ltb (Py.last_segment k) "v5" = true)
    /\ descending selected
    /\ (forall n, Some 3%Z = Some n -> (0 < n)%Z ->
          (List.length selected <= Z.to_nat n)%nat)
    /\ (Some 3%Z = None \/ Some 3%Z = Some 0%Z ->
        forall k, In k (thread_keys "t" (db Demo.five_puts)) ->
                  String.ltb (Py.last_segment k) "v5" = true -> In k selected).
Proof.
  apply (list_reads_selected_keys_in_descending_order string Demo.demo_serde Blocking
           Demo.direct_saver 0 (Some (Demo.thread "t")) None
           (Some (Demo.at_version "t" "v5")) (Some 3%Z) Demo.five_puts).
  - reflexivity.
  - intros b H. injection H as <-. discriminate.
Defined.
